(** * OtterlyAPI: the generic repository and the server model

    A shallow embedding of [src/repositories/Repository.ts],
    [src/models/model-serveur.ts] and the route registration of
    [src/routes/Route.ts].

    - Asynchronous methods are computations in a state-and-exception monad
      [Async]: a method either returns a value or raises, and in both cases
      leaves a new world behind.  [try { .. } catch (error) { .. }] is
      [try_catch].
    - The MySQL driver [db] is an external collaborator.  The world holds the
      rows of the repository's table and a fault schedule: every call of
      [db.query] consumes one entry of the schedule and either raises the
      scheduled error, leaving the table as it was, or runs the statement.
    - Identifiers are JavaScript numbers with integer values, read here as
      [Z].  The arithmetic on them is that of doubles: [Number.add] rounds
      the sum to the nearest double, so [maxId + 1] is exact only up to
      2^53, and [Number.toString] prints the shortest digits that read back
      as the same double. *)

From stdpp Require Import gmap strings list fin_maps pretty.
From Stdlib Require Import ZArith Lia.

Local Open Scope Z_scope.

(** ** The runtime: completions, worlds, the monad *)

Module Js.

(** What a [catch] clause receives. *)
Inductive Exn : Type :=
| DriverError (msg : string).

(** How a call ends. *)
Inductive Completion (A : Type) : Type :=
| Return (a : A)
| Raise (e : Exn).
Arguments Return {A} a.
Arguments Raise {A} e.

(** A line written by [console.error]: the label before the error, when the
    source gives one, and the error. *)
Definition LogLine : Type := (option string * Exn)%type.

(** The world of one [Repository<T>] instance: the rows of [tableName] in
    insertion order, the driver's fault schedule, the instance's [store]
    map and the diagnostic stream. *)
Record World (T : Type) : Type := mkWorld {
  table : list T;
  faults : list (option Exn);
  store : gmap string T;
  console : list LogLine;
}.
Arguments mkWorld {T} table faults store console.
Arguments table {T} w.
Arguments faults {T} w.
Arguments store {T} w.
Arguments console {T} w.

Definition Async (W A : Type) : Type := W → Completion A * W.

Definition ret {W A} (a : A) : Async W A := λ w, (Return a, w).

Definition bind {W A B} (m : Async W A) (k : A → Async W B) : Async W B :=
  λ w, match m w with
       | (Return a, w') => k a w'
       | (Raise e, w') => (Raise e, w')
       end.

Definition throw {W A} (e : Exn) : Async W A := λ w, (Raise e, w).

(** [try { body } catch (error) { handler }] *)
Definition try_catch {W A} (body : Async W A) (handler : Exn → Async W A)
  : Async W A :=
  λ w, match body w with
       | (Return a, w') => (Return a, w')
       | (Raise e, w') => handler e w'
       end.

Definition result {W A} (r : Completion A * W) : Completion A := r.1.
Definition world {W A} (r : Completion A * W) : W := r.2.

(** [returns r] holds when the call ended normally. *)
Definition returns {A} (c : Completion A) : bool :=
  match c with Return _ => true | Raise _ => false end.

End Js.
Import Js.

Global Instance Async_ret {W} : MRet (Async W) := λ A, ret.
Global Instance Async_bind {W} : MBind (Async W) := λ A B k m, bind m k.

(** ** Numbers

    A JavaScript number is a double.  The identifiers are integers, so a
    number is read as the integer it equals; an integer that is no double
    stands for the double nearest to it.  Doubles overflow to [Infinity] at
    2^1024, far above every SQL integer type, and that is not modelled. *)

Module Number.

(** The double nearest to an integer, ties going to the even significand
    of 53 bits. *)
Definition round (n : Z) : Z :=
  let a := Z.abs n in
  let e := Z.log2 a - 52 in
  if e <=? 0 then n
  else
    let q := a / 2 ^ e in
    let r := a mod 2 ^ e in
    let half := 2 ^ (e - 1) in
    let q' := if r <? half then q
              else if half <? r then q + 1
              else if Z.even q then q else q + 1 in
    Z.sgn n * (q' * 2 ^ e).

(** [a + b]: the exact sum, rounded. *)
Definition add (a b : Z) : Z := round (round a + round b).

(** [Number.isSafeInteger(n)] *)
Definition isSafeInteger (n : Z) : bool :=
  (- 2 ^ 53 <? n) && (n <? 2 ^ 53).

(** The number of decimal digits of a positive integer. *)
Definition digits (x : Z) : Z := Z.of_nat (String.length (pretty x)).

(** [Number::toString] looks for integers [s] of [k] digits and [n] with
    [s * 10 ^ (n - k)] reading back as [x], for the least [k].  The
    candidates [(s, n)] for one [k], where [x] has [d] digits: the two
    multiples of [10 ^ (d - k)] around [x], and [10 ^ d] itself. *)
Definition candidates (x d k : Z) : list (Z * Z) :=
  let p := 10 ^ (d - k) in
  let lo := x / p in
  let here :=
    List.filter (λ s, (10 ^ (k - 1) <=? s) && (s <? 10 ^ k)
                      && bool_decide (round (s * p) = x))
      [lo; lo + 1] in
  let here := (λ s, (s, d)) <$> here in
  if bool_decide (k = 1) && bool_decide (round (10 ^ d) = x)
  then here ++ [(1, d + 1)]
  else here.

(** Of two candidates, the one whose value is closer to [x]; on a tie, the
    one with the even [s]. *)
Definition better (x k : Z) (c1 c2 : Z * Z) : Z * Z :=
  let d1 := Z.abs (c1.1 * 10 ^ (c1.2 - k) - x) in
  let d2 := Z.abs (c2.1 * 10 ^ (c2.2 - k) - x) in
  if d1 <? d2 then c1
  else if d2 <? d1 then c2
  else if Z.even c1.1 then c1 else c2.

Definition best (x k : Z) (cs : list (Z * Z)) : option (Z * Z) :=
  match cs with
  | [] => None
  | c :: cs => Some (foldl (better x k) c cs)
  end.

(** The first [k] of the list that has a candidate, with the best one. *)
Fixpoint shortest (x d : Z) (ks : list Z) : option (Z * Z * Z) :=
  match ks with
  | [] => None
  | k :: ks =>
      match best x k (candidates x d k) with
      | Some (s, n) => Some (s, n, k)
      | None => shortest x d ks
      end
  end.

Fixpoint zeros (n : nat) : string :=
  match n with
  | O => EmptyString
  | S n => "0" +:+ zeros n
  end.

(** The digits of [s] followed by [n - k] zeros up to 21 digits, and the
    exponent form beyond. *)
Definition positive_toString (x : Z) : string :=
  let d := digits x in
  match shortest x d (Z.of_nat <$> seq 1 (Z.to_nat d)) with
  | Some (s, n, k) =>
      if n <=? 21 then pretty s +:+ zeros (Z.to_nat (n - k))
      else
        match pretty s with
        | String c EmptyString => String c ("e+" +:+ pretty (n - 1))
        | String c rest =>
            String c ("." +:+ rest +:+ "e+" +:+ pretty (n - 1))
        | EmptyString => EmptyString
        end
  | None => pretty x
  end.

(** [number.toString()] *)
Definition toString (n : Z) : string :=
  match round n with
  | Z0 => "0"
  | Zpos x => positive_toString (Zpos x)
  | Zneg x => "-" +:+ positive_toString (Zpos x)
  end.

End Number.

Global Arguments Number.round : simpl never.
Global Arguments Number.add : simpl never.
Global Arguments Number.toString : simpl never.

(** ** Entities: records with an optional numeric identifier
    ([T extends { id?: number }]) *)

Class Entity (T : Type) : Type := {
  get_id : T → option Z;
  set_id : Z → T → T;
  get_set_id : ∀ i t, get_id (set_id i t) = Some i;
}.

(** ** The driver *)

Module Db.
Section Db.
Context {T : Type} `{Entity T}.

(** A statement: what it answers and what it leaves in the table. *)
Definition Statement (A : Type) : Type := list T → A * list T.

(** Modelled from the spec: the module [db] (src/db.ts) is absent.  The
    spec's persistence client executes parameterized SQL statements against
    a relational store and returns row sets, and its failures are what the
    repository catches.  [db.query(sql, params)]: the next entry of the
    fault schedule decides whether the driver raises; an exhausted schedule
    means no fault.  A statement that raises changes no row. *)
Definition query {A} (stmt : Statement A) : Async (World T) A :=
  λ w, match faults w with
       | Some e :: fs =>
           (Raise e, mkWorld (table w) fs (store w) (console w))
       | None :: fs =>
           let '(a, tbl) := stmt (table w) in
           (Return a, mkWorld tbl fs (store w) (console w))
       | [] =>
           let '(a, tbl) := stmt (table w) in
           (Return a, mkWorld tbl [] (store w) (console w))
       end.

(** The error the next call of [query] raises, if it raises. *)
Definition next_fault (w : World T) : option Exn :=
  match faults w with
  | fault :: _ => fault
  | [] => None
  end.

(** The next [n] calls of [query] raise nothing. *)
Definition quiet (n : nat) (w : World T) : bool :=
  forallb (λ fault, bool_decide (fault = None)) (take n (faults w)).

(** The non-NULL identifiers of the rows. *)
Definition ids (tbl : list T) : list Z := omap get_id tbl.

(** Every identifier of the table is a safe integer. *)
Definition safe (tbl : list T) : bool :=
  forallb Number.isSafeInteger (ids tbl).

(** SQL [MAX(id)]: NULL on no rows, NULL identifiers are skipped. *)
Definition max_id (tbl : list T) : option Z :=
  match ids tbl with
  | [] => None
  | i :: l => Some (foldr Z.max i l)
  end.

(** [m] is the greatest identifier of the table. *)
Definition is_max_id (tbl : list T) (m : Z) : Prop :=
  m ∈ ids tbl ∧ ∀ i, i ∈ ids tbl → i ≤ m.

Definition has_id (id : Z) (row : T) : bool :=
  match get_id row with
  | Some i => bool_decide (i = id)
  | None => false
  end.

(** [SELECT MAX(id) AS id FROM t]: one row, whose [id] may be NULL. *)
Definition select_max_id : Statement (list (option Z)) :=
  λ tbl, ([max_id tbl], tbl).

(** [INSERT INTO t SET ?] *)
Definition insert_set (item : T) : Statement unit :=
  λ tbl, (tt, tbl ++ [item]).

(** [SELECT * FROM t WHERE id = ?] *)
Definition select_where_id (id : Z) : Statement (list T) :=
  λ tbl, (List.filter (has_id id) tbl, tbl).

(** [SELECT * FROM t] *)
Definition select_all : Statement (list T) :=
  λ tbl, (tbl, tbl).

(** [DELETE FROM t WHERE id = ?], answering [affectedRows]. *)
Definition delete_where_id (id : Z) : Statement nat :=
  λ tbl, (length (List.filter (has_id id) tbl),
          List.filter (λ row, negb (has_id id row)) tbl).

(** [SELECT * FROM t LIMIT 1] *)
Definition select_limit_1 : Statement (list T) :=
  λ tbl, (take 1 tbl, tbl).

End Db.
End Db.

(** ** Repository.ts *)

Module Repository.
Section Repository.
Context {T : Type} `{Entity T}.

Definition console_error (label : option string) (error : Exn)
  : Async (World T) unit :=
  λ w, (Return tt,
        mkWorld (table w) (faults w) (store w) (console w ++ [(label, error)])).

(** [this.store.set(key, item)] *)
Definition store_set (key : string) (item : T) : Async (World T) unit :=
  λ w, (Return tt,
        mkWorld (table w) (faults w) (<[key := item]> (store w)) (console w)).

(** [item.id.toString()] *)
Definition toString (n : Z) : string := Number.toString n.

Definition fetchNextId : Async (World T) Z :=
  try_catch
    (rows ← Db.query Db.select_max_id;
     (* (rows[0]?.id as number | null) ?? 0 *)
     let maxId := match rows with
                  | row :: _ => default 0 row
                  | [] => 0
                  end in
     mret (Number.add maxId 1))
    (λ error, console_error None error;; mret 0).

Definition getNextId : Async (World T) Z := fetchNextId.

(** [item.id ??= await this.getNextId()]: the identifier the item has
    afterwards, and the item as it then is. *)
Definition assign_id (item : T) : Async (World T) (Z * T) :=
  match get_id item with
  | Some i => mret (i, item)
  | None => i ← getNextId; mret (i, set_id i item)
  end.

Definition save (item : T) : Async (World T) unit :=
  '(id, item) ← assign_id item;
  store_set (toString id) item;;
  try_catch
    (Db.query (Db.insert_set item))
    (λ error,
       console_error (Some "Erreur lors de la sauvegarde dans la base de données :") error).

Definition findById (id : Z) : Async (World T) (option T) :=
  try_catch
    (rows ← Db.query (Db.select_where_id id);
     (* rows.length > 0 ? rows[0] as T : null *)
     mret (match rows with
          | row :: _ => Some row
          | [] => None
          end))
    (λ error,
       console_error (Some "Erreur lors de la recherche dans la base de données :") error;;
       mret None).

Definition findAll : Async (World T) (list T) :=
  try_catch
    (Db.query Db.select_all)
    (λ error,
       console_error (Some "Erreur lors de la recherche de tous les éléments :") error;;
       mret []).

Definition delete (id : Z) : Async (World T) bool :=
  try_catch
    (affectedRows ← Db.query (Db.delete_where_id id);
     mret (bool_decide (0 < affectedRows)%nat))
    (λ error,
       console_error (Some "Erreur lors de la suppression :") error;;
       mret false).

Definition findFirst : Async (World T) (option T) :=
  try_catch
    (rows ← Db.query Db.select_limit_1;
     mret (match rows with
          | row :: _ => Some row
          | [] => None
          end))
    (λ error,
       console_error (Some "Erreur lors de la récupération de la première ligne :") error;;
       mret None).

(** [query(sql, params)]: any statement that answers rows. *)
Definition query (stmt : Db.Statement (list T)) : Async (World T) (list T) :=
  try_catch
    (Db.query stmt)
    (λ error,
       console_error (Some "Erreur lors de la requête :") error;;
       mret []).

End Repository.
End Repository.

(** ** interfaces/ServeurInterfaces *)

Module ServeurInterface.

(** Modelled from the spec: the declaration of [ServeurInterface]
    (interfaces/ServeurInterfaces) is absent.  The spec's server record has
    an optional numeric identifier, name, game, version, modpack name and
    URL, world name, embed color, container reference, description, active
    flag, global flag, type, image and a transient online-player count; the
    field names are the ones model-serveur.ts reads.  This record is
    [Partial<ServeurInterface>]: any field may be missing, which is also how
    a row comes back from the driver ([rows as T[]] checks nothing). *)
Record t : Type := mk {
  id : option Z;
  nom : option string;
  jeu : option string;
  version : option string;
  modpack : option string;
  modpack_url : option string;
  nom_monde : option string;
  embed_color : option string;
  contenaire : option string;
  description : option string;
  actif : option bool;
  global : option bool;
  players_online : option Z;
  type : option string;
  image : option string;
}.

(** [{ ...data, id: i }] *)
Definition with_id (i : Z) (data : t) : t :=
  mk (Some i) (nom data) (jeu data) (version data) (modpack data)
     (modpack_url data) (nom_monde data) (embed_color data) (contenaire data)
     (description data) (actif data) (global data) (players_online data)
     (type data) (image data).

(** A missing or false flag is falsy. *)
Definition truthy (flag : option bool) : bool := default false flag.

End ServeurInterface.

Global Instance ServeurInterface_entity : Entity ServeurInterface.t := {|
  get_id := ServeurInterface.id;
  set_id := ServeurInterface.with_id;
  get_set_id := λ _ _, eq_refl;
|}.

(** Modelled from the spec: [ServeurParametersInterface]
    (interfaces/ServeurParametersInterfaces) is absent; the two designated
    identifiers are the fields model-serveur.ts reads. *)
Record ServeurParametersInterface : Type := {
  id_serv_primaire : Z;
  id_serv_secondaire : Z;
}.

(** ** model-serveur.ts *)

Module ModelServeur.

(** A value a property of a plain object can hold. *)
Inductive JsValue : Type :=
| JsUndefined
| JsNumber (n : Z)
| JsString (s : string)
| JsBoolean (b : bool).

Definition js_number (o : option Z) : JsValue :=
  match o with Some n => JsNumber n | None => JsUndefined end.

Record t : Type := mk {
  id : option Z;
  nom : string;
  jeu : string;
  version : string;
  modpack : string;
  modpack_url : string;
  nom_monde : string;
  embed_color : string;
  contenaire : string;
  description : string;
  actif : bool;
  global : bool;
  players_online : option Z;
  type : string;
  image : string;
}.

(** Modelled from the spec: the base class [Model] (models/Model.ts) is
    absent.  An entity is a record with an optional numeric identifier, and
    [toJSON] reads [this.id], so [super(data)] keeps [data.id]. *)
Definition Model_constructor (data : ServeurInterface.t) : option Z :=
  ServeurInterface.id data.

(** [new ModelServeur(data)]; [players_online] is not initialised. *)
Definition new (data : ServeurInterface.t) : t := {|
  id := Model_constructor data;
  nom := default EmptyString (ServeurInterface.nom data);
  jeu := default EmptyString (ServeurInterface.jeu data);
  version := default EmptyString (ServeurInterface.version data);
  modpack := default EmptyString (ServeurInterface.modpack data);
  modpack_url := default EmptyString (ServeurInterface.modpack_url data);
  nom_monde := default EmptyString (ServeurInterface.nom_monde data);
  embed_color := default "#000000" (ServeurInterface.embed_color data);
  contenaire := default EmptyString (ServeurInterface.contenaire data);
  description := default EmptyString (ServeurInterface.description data);
  actif := default false (ServeurInterface.actif data);
  global := default false (ServeurInterface.global data);
  players_online := None;
  type := default EmptyString (ServeurInterface.type data);
  image := default EmptyString (ServeurInterface.image data);
|}.

(** A model instance handed over where a [ServeurInterface] is expected
    (the argument of [save]): the same object, every property it owns. *)
Definition as_data (m : t) : ServeurInterface.t := {|
  ServeurInterface.id := id m;
  ServeurInterface.nom := Some (nom m);
  ServeurInterface.jeu := Some (jeu m);
  ServeurInterface.version := Some (version m);
  ServeurInterface.modpack := Some (modpack m);
  ServeurInterface.modpack_url := Some (modpack_url m);
  ServeurInterface.nom_monde := Some (nom_monde m);
  ServeurInterface.embed_color := Some (embed_color m);
  ServeurInterface.contenaire := Some (contenaire m);
  ServeurInterface.description := Some (description m);
  ServeurInterface.actif := Some (actif m);
  ServeurInterface.global := Some (global m);
  ServeurInterface.players_online := players_online m;
  ServeurInterface.type := Some (type m);
  ServeurInterface.image := Some (image m);
|}.

(** [serveur.players_online = n] *)
Definition set_players_online (n : Z) (m : t) : t :=
  mk (id m) (nom m) (jeu m) (version m) (modpack m) (modpack_url m)
     (nom_monde m) (embed_color m) (contenaire m) (description m) (actif m)
     (global m) (Some n) (type m) (image m).

Definition toJSON (m : t) : gmap string JsValue :=
  list_to_map [
    ("id", js_number (id m));
    ("nom", JsString (nom m));
    ("jeu", JsString (jeu m));
    ("version", JsString (version m));
    ("modpack", JsString (modpack m));
    ("modpack_url", JsString (modpack_url m));
    ("nom_monde", JsString (nom_monde m));
    ("embed_color", JsString (embed_color m));
    ("contenaire", JsString (contenaire m));
    ("description", JsString (description m));
    ("actif", JsBoolean (actif m));
    ("global", JsBoolean (global m));
    ("type", JsString (type m));
    ("image", JsString (image m))
  ].

Abbreviation W := (World ServeurInterface.t).

Definition getAll : Async W (list t) :=
  serveurs ← Repository.findAll;
  mret (map new serveurs).

Definition getById (id : Z) : Async W (option t) :=
  serveur ← Repository.findById id;
  mret (match serveur with
        | Some row => Some (new row)
        | None => None
        end).

Definition getServeursActifGlobal : Async W (list t) :=
  serveurs ← Repository.findAll;
  let serveursActifGlobal :=
    List.filter
      (λ serveur, ServeurInterface.truthy (ServeurInterface.actif serveur)
                  && ServeurInterface.truthy (ServeurInterface.global serveur))
      serveurs in
  mret (map new serveursActifGlobal).

Definition create (data : ServeurInterface.t) : Async W t :=
  nextId ← Repository.getNextId;
  let serveur := new (ServeurInterface.with_id nextId data) in
  Repository.save (as_data serveur);;
  mret serveur.

Definition delete (id : Z) : Async W bool :=
  deleted ← Repository.delete id;
  mret deleted.

Section Collaborators.
(** [RepositoryServeurParameters.getServeursId] and
    [ServiceServeur.getPlayersCount] are absent: any computations of
    their types. *)
Variable getServeursId : Async W (option ServeurParametersInterface).
Variable getPlayersCount : t → Async W Z.

Definition getStartedServeursId
  : Async W (option ServeurParametersInterface) :=
  getServeursId.

(** [if (serveur) { serveur.players_online = await getPlayersCount(serveur) }] *)
Definition enrich (serveur : option t) : Async W (option t) :=
  match serveur with
  | Some m => n ← getPlayersCount m; mret (Some (set_players_online n m))
  | None => mret None
  end.

Definition getStartedServeursInfo : Async W (option (list t)) :=
  serveursStartedId ← getStartedServeursId;
  match serveursStartedId with
  | Some params =>
      serveursPrimary ← getById (id_serv_primaire params);
      serveursSecondaire ← getById (id_serv_secondaire params);
      serveursPrimary ← enrich serveursPrimary;
      serveursSecondaire ← enrich serveursSecondaire;
      match serveursPrimary, serveursSecondaire with
      | Some p, Some s => mret (Some [p; s])
      | _, _ => mret None
      end
  | None => mret None
  end.
End Collaborators.

(** How a call that may also fail outside the driver ends: with the error
    the driver raised, or with the TypeError of reading a property off
    [null] or [undefined]. *)
Inductive Failure : Type :=
| DriverFailure (e : Exn)
| TypeError.

(** [array.filter(callback)] with a callback that may raise: the rows are
    visited in order and the first raise ends the call. *)
Fixpoint filter_raising {A} (callback : A → option bool) (l : list A)
  : option (list A) :=
  match l with
  | [] => Some []
  | x :: l =>
      keep ← callback x;
      kept ← filter_raising callback l;
      Some (if keep : bool then x :: kept else kept)
  end.

Section Builtins.
(** [String.prototype.toLowerCase]: the Unicode case mapping is not spelled
    out; any function on strings. *)
Variable toLowerCase : string → string.

(** [serveur.actif && serveur.global &&
     serveur.jeu.toLowerCase() === game.toLowerCase()]: the third operand is
    evaluated only when the first two are truthy, and reading [toLowerCase]
    off a missing [jeu] raises ([None]). *)
Definition actif_global_game (game : string) (serveur : ServeurInterface.t)
  : option bool :=
  if ServeurInterface.truthy (ServeurInterface.actif serveur)
     && ServeurInterface.truthy (ServeurInterface.global serveur)
  then
    match ServeurInterface.jeu serveur with
    | Some jeu => Some (bool_decide (toLowerCase jeu = toLowerCase game))
    | None => None
    end
  else Some false.

Definition getServeursActifGlobalByGame (game : string)
  : W → (Failure + list t) * W :=
  λ w, match Repository.findAll w with
       | (Return serveurs, w') =>
           match filter_raising (actif_global_game game) serveurs with
           | Some serveursActifGlobal => (inr (map new serveursActifGlobal), w')
           | None => (inl TypeError, w')
           end
       | (Raise e, w') => (inl (DriverFailure e), w')
       end.
End Builtins.

End ModelServeur.

(** ** routes/Route.ts *)

Module Routes.

Record t : Type := mk {
  id : option Z;
  alias : string;
  route : string;
  method : string;
  parameters : string;
  comment : option string;
  description : option string;
}.

(** A value inside a template literal: [undefined] prints as its name. *)
Definition interpolate (value : option string) : string :=
  default "undefined" value.

(** [if (type)]: a missing type and the empty string are falsy. *)
Definition falsy (type : option string) : bool :=
  match type with
  | Some EmptyString | None => true
  | Some _ => false
  end.

(** What [registerRoutes] writes before the route: [API_URL] is
    [process.env.API_URL]. *)
Definition prefix (API_URL type : option string) : string :=
  if falsy type
  then interpolate API_URL
  else interpolate API_URL +:+ "/" +:+ interpolate type.

(** The body of the [forEach] callback on one route: the route after the
    assignment, which is also what [addRoute] receives. *)
Definition register (API_URL type : option string) (r : t) : t :=
  mk (id r) (alias r) (prefix API_URL type +:+ route r) (method r)
     (parameters r) (comment r) (description r).

(** [Routes.registerRoutes(routes, type)].  The routes of the array are
    distinct objects; the answer is the array as the call leaves it, which is
    also the sequence of arguments of [addRoute] ([RepositoryApiRoutes] is
    absent and its effect is not modelled). *)
Definition registerRoutes (API_URL : option string) (routes : list t)
    (type : option string) : list t :=
  map (register API_URL type) routes.

End Routes.

(** ** Concurrent calls of [ModelServeur.create]

    Node runs one call at a time and switches between pending calls only at
    an [await].  [create] awaits [getNextId] and then [save]; [save], handed
    an item whose identifier is already set, sets the store entry and awaits
    the INSERT.  A pending [create] is therefore in one of three states, and
    a step of the event loop resumes one pending call up to its next
    suspension. *)

Module Concurrent.

Inductive Call : Type :=
| Called (data : ServeurInterface.t)
    (* create(data) has been called; the MAX query is not yet answered *)
| Allocated (nextId : Z) (data : ServeurInterface.t)
    (* getNextId() has answered; save has not begun *)
| Created (serveur : ModelServeur.t)
    (* create has returned *)
| Rejected (error : Exn).
    (* create has raised *)

(** Resume one call. *)
Definition resume (c : Call) (w : ModelServeur.W) : Call * ModelServeur.W :=
  match c with
  | Called data =>
      match Repository.getNextId w with
      | (Return nextId, w') => (Allocated nextId data, w')
      | (Raise e, w') => (Rejected e, w')
      end
  | Allocated nextId data =>
      let serveur := ModelServeur.new (ServeurInterface.with_id nextId data) in
      match Repository.save (ModelServeur.as_data serveur) w with
      | (Return _, w') => (Created serveur, w')
      | (Raise e, w') => (Rejected e, w')
      end
  | Created _ | Rejected _ => (c, w)
  end.

(** The pending calls and the world they share. *)
Definition Config : Type := (list Call * ModelServeur.W)%type.

(** The event loop resumes the call at index [i]. *)
Definition step (i : nat) (cfg : Config) : Config :=
  match cfg.1 !! i with
  | Some c =>
      let '(c', w') := resume c cfg.2 in
      (<[i := c']> cfg.1, w')
  | None => cfg
  end.

(** An interleaving: the indices of the calls in the order they are
    resumed. *)
Definition run (schedule : list nat) (cfg : Config) : Config :=
  foldl (λ cfg i, step i cfg) cfg schedule.

End Concurrent.

(** ** Sample data *)

Module Sample.

Definition blank : ServeurInterface.t :=
  ServeurInterface.mk None None None None None None None None None None
                      None None None None None.

Definition minecraft : ServeurInterface.t :=
  ServeurInterface.mk None (Some "Serveur Test") (Some "Minecraft")
    (Some "1.19.2") (Some "Minecraft") None (Some "Test") None None None
    (Some true) (Some true) None None None.

Definition row (i : Z) (data : ServeurInterface.t) : ServeurInterface.t :=
  ModelServeur.as_data (ModelServeur.new (ServeurInterface.with_id i data)).

Definition lost : Exn := DriverError "ECONNRESET".

(** A world with the given rows and fault schedule, an empty store and an
    empty console. *)
Definition setup (tbl : list ServeurInterface.t) (fs : list (option Exn))
  : ModelServeur.W :=
  mkWorld tbl fs ∅ [].

(** One server on record; the driver refuses the next query. *)
Definition unreachable : ModelServeur.W :=
  setup [row 5 minecraft] [Some lost].

(** An empty table; the driver answers the first query and refuses the
    second. *)
Definition insert_refused : ModelServeur.W :=
  setup [] [None; Some lost].

(** One server on record under identifier 2^53, a driver without
    faults. *)
Definition saturated : ModelServeur.W :=
  setup [row 9007199254740992 minecraft] [].

(** Servers 1 and 2 on record, a driver without faults. *)
Definition healthy : ModelServeur.W :=
  setup [row 1 minecraft; row 2 blank] [].

Definition params : ServeurParametersInterface :=
  {| id_serv_primaire := 1; id_serv_secondaire := 2 |}.

(** Stand-ins for the two absent collaborators: the parameters name
    servers 1 and 2, the service counts three players on every server. *)
Definition getServeursId
  : Async ModelServeur.W (option ServeurParametersInterface) :=
  mret (Some params).

Definition getPlayersCount (serveur : ModelServeur.t)
  : Async ModelServeur.W Z :=
  mret 3.

(** A player-count service that rejects every call. *)
Definition offline (serveur : ModelServeur.t) : Async ModelServeur.W Z :=
  throw (DriverError "ETIMEDOUT").

(** A row whose game is NULL. *)
Definition nameless : ServeurInterface.t :=
  ServeurInterface.mk (Some 7) (Some "Sans jeu") None None None None None
    None None None (Some true) (Some true) None None None.

Definition get : Routes.t :=
  Routes.mk None "otr-serveurs" "/" "GET" EmptyString None None.

(** A stand-in for [toLowerCase]: the ASCII capitals are lowered, every
    other byte is kept. *)
Definition lower_ascii (c : Ascii.ascii) : Ascii.ascii :=
  let n := Ascii.nat_of_ascii c in
  if ((65 <=? n) && (n <=? 90))%nat then Ascii.ascii_of_nat (n + 32) else c.

Fixpoint lower (s : string) : string :=
  match s with
  | EmptyString => EmptyString
  | String c s => String (lower_ascii c) (lower s)
  end.

(** Server 2 on record and server 1 missing, a driver without faults. *)
Definition secondary_only : ModelServeur.W :=
  setup [row 2 minecraft] [].

End Sample.

(** * Properties *)

(** ** Numbers *)

Section NumberFacts.

(** Up to 2^53 every integer is a double. *)
Lemma round_exact (n : Z) : Z.abs n ≤ 2 ^ 53 → Number.round n = n.
Proof.
  intros Hn. unfold Number.round.
  destruct (Z.leb_spec (Z.log2 (Z.abs n) - 52) 0) as [_|He]; [done|].
  assert (0 < Z.abs n) as Hpos.
  { destruct (decide (Z.abs n = 0)) as [Hz|]; [|lia].
    rewrite Hz in He. simpl in He. lia. }
  destruct (Z.log2_spec _ Hpos) as [Hlow _].
  assert (2 ^ 53 ≤ 2 ^ Z.log2 (Z.abs n)) as Hpow
    by (apply Z.pow_le_mono_r; lia).
  assert (n = 2 ^ 53 ∨ n = - 2 ^ 53) as [->| ->] by lia; reflexivity.
Qed.

Lemma isSafeInteger_bounds (n : Z) :
  Number.isSafeInteger n = true ↔ - 2 ^ 53 < n < 2 ^ 53.
Proof.
  unfold Number.isSafeInteger. rewrite andb_true_iff, !Z.ltb_lt. lia.
Qed.

(** Adding one to a safe integer is exact. *)
Lemma add_one_safe (n : Z) :
  Number.isSafeInteger n = true → Number.add n 1 = n + 1.
Proof.
  intros Hn%isSafeInteger_bounds. unfold Number.add.
  rewrite (round_exact n), (round_exact 1) by lia. apply round_exact. lia.
Qed.

End NumberFacts.

(** ** The driver *)

Section DbFacts.
Context {T : Type} `{Entity T}.
Implicit Types (w : World T) (tbl : list T) (row item : T).

(** What a call of [db.query] leaves behind. *)
Lemma query_unfold {A} (stmt : Db.Statement A) w :
  Db.query stmt w =
    match Db.next_fault w with
    | Some e =>
        (Raise e, mkWorld (table w) (tail (faults w)) (store w) (console w))
    | None =>
        (Return (stmt (table w)).1,
         mkWorld (stmt (table w)).2 (tail (faults w)) (store w) (console w))
    end.
Proof.
  unfold Db.query, Db.next_fault.
  destruct (faults w) as [|[e|] fs]; simpl; try done;
    by destruct (stmt (table w)).
Qed.

Lemma foldr_max_bounds (l : list Z) (i : Z) :
  foldr Z.max i l ∈ i :: l ∧ ∀ j, j ∈ i :: l → j ≤ foldr Z.max i l.
Proof.
  induction l as [|k l [IHin IHle]]; simpl.
  - split; [by left|]. intros j ->%list_elem_of_singleton. lia.
  - split.
    + destruct (Z.max_spec k (foldr Z.max i l)) as [[_ ->]|[_ ->]].
      * apply elem_of_cons in IHin as [->|?]; [by left|by do 2 right].
      * right; by left.
    + intros j Hj. apply elem_of_cons in Hj as [->|Hj].
      * specialize (IHle i ltac:(by left)). lia.
      * apply elem_of_cons in Hj as [->|Hj]; [lia|].
        specialize (IHle j ltac:(by right)). lia.
Qed.

Lemma max_id_None tbl : Db.max_id tbl = None ↔ Db.ids tbl = [].
Proof. unfold Db.max_id. by destruct (Db.ids tbl). Qed.

Lemma max_id_Some tbl m : Db.max_id tbl = Some m ↔ Db.is_max_id tbl m.
Proof.
  unfold Db.max_id, Db.is_max_id.
  destruct (Db.ids tbl) as [|i l] eqn:E.
  - split; [done|]. intros [Hin _]. by apply elem_of_nil in Hin.
  - destruct (foldr_max_bounds l i) as [Hin Hle]. split.
    + by intros [= <-].
    + intros [Hm Hub]. f_equal.
      specialize (Hle m Hm). specialize (Hub _ Hin). lia.
Qed.

Lemma elem_of_ids tbl i :
  i ∈ Db.ids tbl ↔ ∃ row, row ∈ tbl ∧ get_id row = Some i.
Proof. unfold Db.ids. by rewrite list_elem_of_omap. Qed.

Lemma has_id_true id row : Db.has_id id row = true ↔ get_id row = Some id.
Proof.
  unfold Db.has_id. destruct (get_id row) as [i|]; [|done].
  rewrite bool_decide_eq_true. split; [by intros ->|by intros [= ->]].
Qed.

(** No row of a table carries an identifier above its greatest one. *)
Lemma filter_has_id_fresh tbl id :
  (∀ j, j ∈ Db.ids tbl → j < id) → List.filter (Db.has_id id) tbl = [].
Proof.
  intros Hlt. induction tbl as [|row tbl IH]; [done|]. simpl.
  destruct (Db.has_id id row) eqn:E.
  - apply has_id_true in E.
    specialize (Hlt id). rewrite elem_of_ids in Hlt.
    assert (id < id) by (apply Hlt; exists row; split; [by left|done]). lia.
  - apply IH. intros j Hj. apply Hlt.
    apply elem_of_ids in Hj as (r & Hr & Hid).
    apply elem_of_ids. exists r. split; [by right|done].
Qed.

Lemma safe_ids tbl j :
  Db.safe tbl = true → j ∈ Db.ids tbl → Number.isSafeInteger j = true.
Proof.
  unfold Db.safe. rewrite forallb_forall. intros Hall Hj.
  by apply Hall, list_elem_of_In.
Qed.

(** On a table of safe integers [maxId + 1] is the integer above the
    greatest identifier, and 1 when there is none. *)
Lemma next_id_safe tbl :
  Db.safe tbl = true →
  Number.add (default 0 (Db.max_id tbl)) 1 = default 0 (Db.max_id tbl) + 1.
Proof.
  intros Hsafe. apply add_one_safe.
  destruct (Db.max_id tbl) as [m|] eqn:E; [|done]. simpl.
  apply max_id_Some in E as [Hin _]. by apply (safe_ids tbl).
Qed.

(** The identifier [getNextId] computes on a table of safe integers is
    above every identifier of the table. *)
Lemma next_id_above tbl j :
  Db.safe tbl = true →
  j ∈ Db.ids tbl → j < Number.add (default 0 (Db.max_id tbl)) 1.
Proof.
  intros Hsafe Hj. rewrite (next_id_safe _ Hsafe).
  destruct (Db.max_id tbl) as [k|] eqn:E; simpl.
  - apply max_id_Some in E as [_ Hle]. specialize (Hle j Hj). lia.
  - apply max_id_None in E. rewrite E in Hj. by apply elem_of_nil in Hj.
Qed.

End DbFacts.

(** ** Repository.ts *)

Section RepositoryFacts.
Context {T : Type} `{Entity T}.
Implicit Types (w : World T) (tbl : list T) (row item : T).

Lemma fetchNextId_unfold w :
  Repository.fetchNextId w =
    match Db.next_fault w with
    | Some e =>
        (Return 0,
         mkWorld (table w) (tail (faults w)) (store w) (console w ++ [(None, e)]))
    | None =>
        (Return (Number.add (default 0 (Db.max_id (table w))) 1),
         mkWorld (table w) (tail (faults w)) (store w) (console w))
    end.
Proof.
  unfold Repository.fetchNextId, try_catch, mbind, Async_bind, bind.
  rewrite query_unfold. by destruct (Db.next_fault w).
Qed.

Lemma findById_unfold id w :
  Repository.findById id w =
    match Db.next_fault w with
    | Some e =>
        (Return None,
         mkWorld (table w) (tail (faults w)) (store w)
           (console w ++
              [(Some "Erreur lors de la recherche dans la base de données :", e)]))
    | None =>
        (Return (head (List.filter (Db.has_id id) (table w))),
         mkWorld (table w) (tail (faults w)) (store w) (console w))
    end.
Proof.
  unfold Repository.findById, try_catch, mbind, Async_bind, bind.
  rewrite query_unfold. destruct (Db.next_fault w); [done|]. simpl.
  by destruct (List.filter _ _).
Qed.

Lemma findAll_unfold w :
  Repository.findAll w =
    match Db.next_fault w with
    | Some e =>
        (Return [],
         mkWorld (table w) (tail (faults w)) (store w)
           (console w ++
              [(Some "Erreur lors de la recherche de tous les éléments :", e)]))
    | None =>
        (Return (table w),
         mkWorld (table w) (tail (faults w)) (store w) (console w))
    end.
Proof.
  unfold Repository.findAll, try_catch. rewrite query_unfold.
  by destruct (Db.next_fault w).
Qed.

Lemma delete_unfold id w :
  Repository.delete id w =
    match Db.next_fault w with
    | Some e =>
        (Return false,
         mkWorld (table w) (tail (faults w)) (store w)
           (console w ++ [(Some "Erreur lors de la suppression :", e)]))
    | None =>
        (Return (bool_decide
                   (0 < length (List.filter (Db.has_id id) (table w)))%nat),
         mkWorld (List.filter (λ row, negb (Db.has_id id row)) (table w))
           (tail (faults w)) (store w) (console w))
    end.
Proof.
  unfold Repository.delete, try_catch, mbind, Async_bind, bind.
  rewrite query_unfold. by destruct (Db.next_fault w).
Qed.

(** [item.id ??= await this.getNextId()] never raises, and the item has
    the identifier it answers. *)
Lemma assign_id_returns item w :
  ∃ i item' w1,
    Repository.assign_id item w = (Return (i, item'), w1) ∧
    get_id item' = Some i ∧
    table w1 = table w ∧ store w1 = store w.
Proof.
  unfold Repository.assign_id. destruct (get_id item) as [i|] eqn:E.
  - by exists i, item, w.
  - unfold mbind, Async_bind, bind, Repository.getNextId.
    rewrite fetchNextId_unfold.
    destruct (Db.next_fault w); eexists _, _, _;
      (split; [reflexivity|]); by rewrite get_set_id.
Qed.

(** The call of [save] after the identifier is settled. *)
Lemma save_unfold item w i item' w1 :
  Repository.assign_id item w = (Return (i, item'), w1) →
  Repository.save item w =
    match Db.next_fault w1 with
    | Some e =>
        (Return tt,
         mkWorld (table w1) (tail (faults w1))
           (<[Repository.toString i := item']> (store w1))
           (console w1 ++
              [(Some "Erreur lors de la sauvegarde dans la base de données :", e)]))
    | None =>
        (Return tt,
         mkWorld (table w1 ++ [item']) (tail (faults w1))
           (<[Repository.toString i := item']> (store w1)) (console w1))
    end.
Proof.
  intros Hid.
  unfold Repository.save, try_catch, mbind, Async_bind, bind.
  rewrite Hid. simpl. rewrite query_unfold.
  unfold Db.next_fault. simpl. by destruct (faults w1) as [|[e|] fs].
Qed.

(** [save] ends normally in every world. *)
Lemma save_returns item w : result (Repository.save item w) = Return tt.
Proof.
  destruct (assign_id_returns item w) as (i & item' & w1 & Hid & _).
  rewrite (save_unfold _ _ _ _ _ Hid). by destruct (Db.next_fault w1).
Qed.

End RepositoryFacts.

Section RepositoryClaims.
Context {T : Type} `{Entity T}.
Implicit Types (w : World T) (tbl : list T) (row item : T).

(** C7, as amended.  [getNextId] never raises.  When the MAX query fails
    it answers 0.  When the MAX query succeeds and every identifier of the
    table is a safe integer, it answers one plus the greatest identifier of
    the table, and 1 when the table holds no identifier. *)
Theorem getNextId_max_plus_one w :
  ∃ n, result (Repository.getNextId w) = Return n ∧
       match Db.next_fault w with
       | None =>
           Db.safe (table w) = true →
           (Db.ids (table w) = [] ∧ n = 1) ∨
           (∃ m, Db.is_max_id (table w) m ∧ n = m + 1)
       | Some _ => n = 0
       end.
Proof.
  unfold Repository.getNextId. rewrite fetchNextId_unfold.
  destruct (Db.next_fault w); [by exists 0|].
  eexists; split; [reflexivity|]. intros Hsafe.
  rewrite (next_id_safe _ Hsafe).
  destruct (Db.max_id (table w)) as [m|] eqn:E.
  - right. exists m. by apply max_id_Some in E.
  - left. by apply max_id_None in E.
Qed.

(** C2. [delete(id)] never raises.  When the DELETE succeeds it answers
    true exactly when the table held a row with that identifier before the
    call; when the query fails it answers false. *)
Theorem delete_true_iff_row_existed id w :
  ∃ b, result (Repository.delete id w) = Return b ∧
       match Db.next_fault w with
       | None => b = true ↔ ∃ row, row ∈ table w ∧ get_id row = Some id
       | Some _ => b = false
       end.
Proof.
  rewrite delete_unfold. destruct (Db.next_fault w).
  { by exists false. }
  eexists; split; [reflexivity|].
  rewrite bool_decide_eq_true. split.
  - intros Hlen.
    destruct (List.filter (Db.has_id id) (table w)) as [|row l] eqn:E;
      [simpl in Hlen; lia|].
    assert (In row (List.filter (Db.has_id id) (table w))) as Hin
      by (rewrite E; by left).
    apply filter_In in Hin as [Hin Hid].
    exists row. split; [by apply list_elem_of_In|by apply has_id_true].
  - intros (row & Hin & Hid).
    assert (In row (List.filter (Db.has_id id) (table w))) as Hrow.
    { apply filter_In. split; [by apply list_elem_of_In|by apply has_id_true]. }
    destruct (List.filter _ _); [done|simpl; lia].
Qed.

(** C3. [save] never raises: whatever the item and whatever the driver
    does, the call returns, and it returns the same (void) result whether
    or not the row was inserted. *)
Theorem save_never_raises item w :
  result (Repository.save item w) = Return tt ∧
  ∀ w', result (Repository.save item w') = result (Repository.save item w).
Proof.
  split; [apply save_returns|]. intros w'. by rewrite !save_returns.
Qed.

(** C1, as amended.  For an item without identifier, [save] assigns the
    value [getNextId] answers, files the item under it in the store and
    hands the item with that identifier to the INSERT.  When the MAX query
    succeeds and every identifier of the table is a safe integer, that
    value is strictly greater than every identifier of the table at the
    time of the call; when the MAX query fails it is 0. *)
Theorem save_assigns_next_id item w :
  get_id item = None →
  ∃ i, result (Repository.getNextId w) = Return i ∧
       store (world (Repository.save item w)) !! Repository.toString i
         = Some (set_id i item) ∧
       table (world (Repository.save item w))
         = match Db.next_fault (world (Repository.getNextId w)) with
           | None => table w ++ [set_id i item]
           | Some _ => table w
           end ∧
       match Db.next_fault w with
       | None =>
           Db.safe (table w) = true → ∀ j, j ∈ Db.ids (table w) → j < i
       | Some _ => i = 0
       end.
Proof.
  intros Hnone.
  assert (∃ i w1, Repository.getNextId w = (Return i, w1) ∧
                  table w1 = table w ∧
                  match Db.next_fault w with
                  | None =>
                      Db.safe (table w) = true →
                      ∀ j, j ∈ Db.ids (table w) → j < i
                  | Some _ => i = 0
                  end) as (i & w1 & Hnext & Htbl & Hfresh).
  { unfold Repository.getNextId. rewrite fetchNextId_unfold.
    destruct (Db.next_fault w); eexists _, _; (split; [reflexivity|]);
      (split; [done|]); [done|].
    intros Hsafe j Hj. by apply next_id_above. }
  assert (Repository.assign_id item w = (Return (i, set_id i item), w1)) as Hid.
  { unfold Repository.assign_id. rewrite Hnone.
    unfold mbind, Async_bind, bind. by rewrite Hnext. }
  exists i. rewrite (save_unfold _ _ _ _ _ Hid), Hnext. unfold result, world.
  simpl. split; [done|].
  destruct (Db.next_fault w1); simpl; rewrite lookup_insert_eq, Htbl; done.
Qed.

(** C9. [save] files the item in the store, under the string form of its
    identifier, before it calls the driver: the entry is there whatever the
    INSERT does, and when the INSERT fails the table is as it was before
    the call while the store has the item. *)
Theorem save_stores_before_insert item w :
  ∃ i item' w1,
    Repository.assign_id item w = (Return (i, item'), w1) ∧
    get_id item' = Some i ∧
    store (world (Repository.save item w))
      = <[Repository.toString i := item']> (store w) ∧
    table (world (Repository.save item w))
      = match Db.next_fault w1 with
        | None => table w ++ [item']
        | Some _ => table w
        end.
Proof.
  destruct (assign_id_returns item w) as (i & item' & w1 & Hid & Hi & Htbl & Hst).
  exists i, item', w1. rewrite (save_unfold _ _ _ _ _ Hid).
  do 2 (split; [done|]).
  destruct (Db.next_fault w1); unfold world; simpl; by rewrite Htbl, Hst.
Qed.

End RepositoryClaims.

(** ** model-serveur.ts *)

Section ModelServeurFacts.
Implicit Types (w : ModelServeur.W) (data row : ServeurInterface.t)
  (m : ModelServeur.t).

Lemma new_players_online data :
  ModelServeur.players_online (ModelServeur.new data) = None.
Proof. done. Qed.

(** Reading a model instance back through the constructor loses only the
    player count. *)
Lemma new_as_data m :
  ModelServeur.players_online m = None →
  ModelServeur.new (ModelServeur.as_data m) = m.
Proof. destruct m; simpl; by intros ->. Qed.

Lemma new_id data :
  ModelServeur.id (ModelServeur.new data) = ServeurInterface.id data.
Proof. done. Qed.

Lemma getById_unfold id w :
  ModelServeur.getById id w =
    match Db.next_fault w with
    | Some e =>
        (Return None,
         mkWorld (table w) (tail (faults w)) (store w)
           (console w ++
              [(Some "Erreur lors de la recherche dans la base de données :", e)]))
    | None =>
        (Return (ModelServeur.new <$> head (List.filter (Db.has_id id) (table w))),
         mkWorld (table w) (tail (faults w)) (store w) (console w))
    end.
Proof.
  unfold ModelServeur.getById, mbind, Async_bind, bind.
  rewrite findById_unfold. destruct (Db.next_fault w); [done|].
  by destruct (head _).
Qed.

Lemma getById_returns id w : ∃ o, result (ModelServeur.getById id w) = Return o.
Proof. rewrite getById_unfold. destruct (Db.next_fault w); by eexists. Qed.

Lemma create_unfold data w :
  ModelServeur.create data w =
    let r := Repository.getNextId w in
    match result r with
    | Return i =>
        let serveur := ModelServeur.new (ServeurInterface.with_id i data) in
        (Return serveur,
         world (Repository.save (ModelServeur.as_data serveur) (world r)))
    | Raise e => (Raise e, world r)
    end.
Proof.
  unfold ModelServeur.create, mbind, Async_bind, bind. simpl.
  destruct (Repository.getNextId w) as [[i|e] w1]; [|done]. simpl.
  pose proof (save_returns
                (ModelServeur.as_data
                   (ModelServeur.new (ServeurInterface.with_id i data))) w1)
    as Hret.
  unfold result in Hret.
  by destruct (Repository.save _ w1) as [[[]|e] w2]; simplify_eq/=.
Qed.

Lemma quiet_S n (w w' : ModelServeur.W) :
  Db.quiet (S n) w = true →
  faults w' = tail (faults w) →
  Db.next_fault w = None ∧ Db.quiet n w' = true.
Proof.
  unfold Db.quiet, Db.next_fault. intros Hq ->.
  destruct (faults w) as [|f fs]; simpl in *.
  - split; [done|]. by destruct n.
  - apply andb_true_iff in Hq as [Hf Hq].
    by apply bool_decide_eq_true in Hf.
Qed.

(** The code's filter keeps the rows whose two flags are both true. *)
Lemma filter_actif_global (tbl : list ServeurInterface.t) :
  List.filter
    (λ serveur, ServeurInterface.truthy (ServeurInterface.actif serveur)
                && ServeurInterface.truthy (ServeurInterface.global serveur))
    tbl
  = filter (λ row, ServeurInterface.actif row = Some true ∧
                   ServeurInterface.global row = Some true) tbl.
Proof.
  induction tbl as [|row tbl IH]; [done|].
  rewrite filter_cons. simpl. rewrite IH.
  destruct (decide _) as [[-> ->]|Hno]; [done|].
  destruct (ServeurInterface.actif row) as [[]|],
           (ServeurInterface.global row) as [[]|]; simpl; try done.
  by destruct Hno.
Qed.

End ModelServeurFacts.

Section ModelServeurClaims.
Implicit Types (w : ModelServeur.W) (data row : ServeurInterface.t)
  (m : ModelServeur.t).

(** C4, as amended.  [getServeursActifGlobal] never raises and writes
    neither to the table nor to the store.  Every server it answers has
    both flags true.  When the SELECT succeeds it answers exactly the rows
    of the table whose [actif] and [global] flags are both true, each
    wrapped as a [ModelServeur], in table order; when the SELECT fails it
    answers the empty sequence. *)
Theorem getServeursActifGlobal_filters w :
  ∃ l, result (ModelServeur.getServeursActifGlobal w) = Return l ∧
       table (world (ModelServeur.getServeursActifGlobal w)) = table w ∧
       store (world (ModelServeur.getServeursActifGlobal w)) = store w ∧
       (∀ m, m ∈ l →
             ModelServeur.actif m = true ∧ ModelServeur.global m = true) ∧
       l = match Db.next_fault w with
           | None =>
               ModelServeur.new <$>
                 filter (λ row, ServeurInterface.actif row = Some true ∧
                                ServeurInterface.global row = Some true)
                        (table w)
           | Some _ => []
           end.
Proof.
  unfold ModelServeur.getServeursActifGlobal, mbind, Async_bind, bind.
  rewrite findAll_unfold. destruct (Db.next_fault w); simpl.
  - exists []. do 3 (split; [done|]). split; [|done].
    by intros m ?%elem_of_nil.
  - eexists; split; [reflexivity|]. rewrite filter_actif_global.
    do 2 (split; [done|]). split; [|done].
    intros m (row & -> & Hrow)%list_elem_of_fmap.
    apply list_elem_of_filter in Hrow as [[Ha Hg] _]. simpl.
    by rewrite Ha, Hg.
Qed.

(** C5, as amended.  When the driver answers the MAX query, the INSERT and
    the SELECT without fault and every identifier of the table is a safe
    integer, [create] returns the record built from the data with a fresh
    identifier, and [getById] on that identifier answers a record equal to
    it in every field. *)
Theorem create_then_getById data w :
  Db.quiet 3 w = true →
  Db.safe (table w) = true →
  ∃ i m, result (ModelServeur.create data w) = Return m ∧
         m = ModelServeur.new (ServeurInterface.with_id i data) ∧
         ModelServeur.id m = Some i ∧
         result (ModelServeur.getById i (world (ModelServeur.create data w)))
           = Return (Some m).
Proof.
  intros Hq Hsafe. rewrite create_unfold.
  unfold Repository.getNextId. rewrite fetchNextId_unfold.
  set (w1 := mkWorld (table w) (tail (faults w)) (store w) (console w)).
  destruct (quiet_S 2 w w1 Hq eq_refl) as [Hf0 Hq1]. rewrite Hf0. simpl.
  set (i := Number.add (default 0 (Db.max_id (table w))) 1).
  set (m := ModelServeur.new (ServeurInterface.with_id i data)).
  exists i, m. split; [|split; [|split]]; try done.
  assert (Repository.assign_id (ModelServeur.as_data m) w1
          = (Return (i, ModelServeur.as_data m), w1)) as Hid by done.
  unfold world; simpl. fold i m w1. rewrite (save_unfold _ _ _ _ _ Hid).
  set (w2 := mkWorld (table w1) (tail (faults w1)) (store w1) (console w1)).
  destruct (quiet_S 1 w1 w2 Hq1 eq_refl) as [Hf1 Hq2]. rewrite Hf1. simpl.
  rewrite getById_unfold. simpl.
  assert (Db.next_fault
            (mkWorld (table w ++ [ModelServeur.as_data m])
               (tail (tail (faults w)))
               (<[Repository.toString i := ModelServeur.as_data m]> (store w))
               (console w)) = None) as ->.
  { by destruct (quiet_S 0 w2 (mkWorld [] (tail (faults w2)) ∅ []) Hq2 eq_refl). }
  unfold result; simpl. do 2 f_equal.
  rewrite List.filter_app, filter_has_id_fresh; simpl.
  - assert (Db.has_id i (ModelServeur.as_data m) = true) as ->
      by by apply has_id_true.
    simpl. by rewrite new_as_data.
  - intros j Hj. by apply next_id_above.
Qed.

(** C10. [toJSON] answers a map with exactly the fourteen fields [id],
    [nom], [jeu], [version], [modpack], [modpack_url], [nom_monde],
    [embed_color], [contenaire], [description], [actif], [global], [type]
    and [image], each holding the instance's value; [players_online] is
    never among them, and setting it does not change the answer. *)
Theorem toJSON_fields m :
  dom (ModelServeur.toJSON m)
    = list_to_set
        ["id"; "nom"; "jeu"; "version"; "modpack"; "modpack_url";
         "nom_monde"; "embed_color"; "contenaire"; "description"; "actif";
         "global"; "type"; "image"] ∧
  ("players_online" ∉ dom (ModelServeur.toJSON m)) ∧
  (∀ n, ModelServeur.toJSON (ModelServeur.set_players_online n m)
        = ModelServeur.toJSON m) ∧
  (ModelServeur.toJSON m !! "id"
     = Some (ModelServeur.js_number (ModelServeur.id m))) ∧
  (ModelServeur.toJSON m !! "nom"
     = Some (ModelServeur.JsString (ModelServeur.nom m))) ∧
  (ModelServeur.toJSON m !! "actif"
     = Some (ModelServeur.JsBoolean (ModelServeur.actif m))) ∧
  (ModelServeur.toJSON m !! "global"
     = Some (ModelServeur.JsBoolean (ModelServeur.global m))).
Proof.
  assert (dom (ModelServeur.toJSON m)
          = list_to_set
              ["id"; "nom"; "jeu"; "version"; "modpack"; "modpack_url";
               "nom_monde"; "embed_color"; "contenaire"; "description";
               "actif"; "global"; "type"; "image"]) as Hdom.
  { unfold ModelServeur.toJSON. by rewrite dom_list_to_map_L. }
  split; [done|]. split.
  { by apply not_elem_of_dom. }
  split; [done|].
  repeat split; reflexivity.
Qed.

End ModelServeurClaims.

Section StartedServeurs.
Variable getServeursId : Async ModelServeur.W (option ServeurParametersInterface).
Variable getPlayersCount : ModelServeur.t → Async ModelServeur.W Z.
Implicit Types (w : ModelServeur.W) (m : ModelServeur.t).

Lemma enrich_unfold (o : option ModelServeur.t) w :
  ModelServeur.enrich getPlayersCount o w =
    match o with
    | Some m =>
        match getPlayersCount m w with
        | (Return n, w') =>
            (Return (Some (ModelServeur.set_players_online n m)), w')
        | (Raise e, w') => (Raise e, w')
        end
    | None => (Return None, w)
    end.
Proof. by destruct o. Qed.

(** C6, as amended.  Provided the parameters lookup and the player-count
    service return, [getStartedServeursInfo] answers null when the
    parameters lookup answers null, when the lookup of the primary server
    answers null and when the lookup of the secondary server answers null;
    otherwise it answers the primary and the secondary server, in that
    order, each with [players_online] holding the count the service gave
    for it and every other field as the lookup answered it. *)
Theorem getStartedServeursInfo_null_or_both w ids :
  (∀ m w', returns (result (getPlayersCount m w')) = true) →
  result (getServeursId w) = Return ids →
  match ids with
  | None =>
      result (ModelServeur.getStartedServeursInfo getServeursId getPlayersCount w)
        = Return None
  | Some params =>
      let r1 := ModelServeur.getById (id_serv_primaire params)
                  (world (getServeursId w)) in
      let r2 := ModelServeur.getById (id_serv_secondaire params) (world r1) in
      ∃ o1 o2,
        result r1 = Return o1 ∧ result r2 = Return o2 ∧
        match o1, o2 with
        | Some p, Some s =>
            ∃ n1 n2 p' s',
              result (getPlayersCount p (world r2)) = Return n1 ∧
              result (getPlayersCount s (world (getPlayersCount p (world r2))))
                = Return n2 ∧
              result (ModelServeur.getStartedServeursInfo
                        getServeursId getPlayersCount w)
                = Return (Some [p'; s']) ∧
              ModelServeur.players_online p' = Some n1 ∧
              ModelServeur.players_online s' = Some n2 ∧
              ModelServeur.toJSON p' = ModelServeur.toJSON p ∧
              ModelServeur.toJSON s' = ModelServeur.toJSON s
        | _, _ =>
            result (ModelServeur.getStartedServeursInfo
                      getServeursId getPlayersCount w)
              = Return None
        end
  end.
Proof.
  intros Hservice Hids.
  assert (∀ m w', ∃ n, result (getPlayersCount m w') = Return n) as Hcount.
  { intros m w'. specialize (Hservice m w').
    destruct (result (getPlayersCount m w')) as [n|e]; [by exists n|done]. }
  unfold ModelServeur.getStartedServeursInfo, ModelServeur.getStartedServeursId,
    mbind, Async_bind, bind.
  unfold result, world in *.
  destruct (getServeursId w) as [c w0]. simpl in Hids. subst c.
  destruct ids as [params|]; [|done]. cbn [fst snd].
  destruct (getById_returns (id_serv_primaire params) w0) as [o1 Ho1].
  unfold result in Ho1.
  destruct (ModelServeur.getById (id_serv_primaire params) w0) as [c1 w1].
  simpl in Ho1. subst c1. cbn [fst snd].
  destruct (getById_returns (id_serv_secondaire params) w1) as [o2 Ho2].
  unfold result in Ho2.
  destruct (ModelServeur.getById (id_serv_secondaire params) w1) as [c2 w2].
  simpl in Ho2. subst c2. cbn [fst snd].
  exists o1, o2. do 2 (split; [reflexivity|]).
  rewrite enrich_unfold.
  destruct o1 as [p|].
  - destruct (Hcount p w2) as [n1 Hn1].
    destruct (getPlayersCount p w2) as [c w3]. simpl in Hn1. subst c.
    rewrite enrich_unfold.
    destruct o2 as [s|]; [|reflexivity].
    destruct (Hcount s w3) as [n2 Hn2]. cbn [fst snd].
    destruct (getPlayersCount s w3) as [c w4]. simpl in Hn2. subst c.
    exists n1, n2, (ModelServeur.set_players_online n1 p),
      (ModelServeur.set_players_online n2 s).
    by repeat split.
  - rewrite enrich_unfold.
    destruct o2 as [s|]; [|reflexivity].
    destruct (Hcount s w2) as [n2 Hn2].
    destruct (getPlayersCount s w2) as [c w4]. simpl in Hn2. by subst c.
Qed.

End StartedServeurs.

(** ** Concurrent calls of [create] *)

Section ConcurrentFacts.
Import Concurrent.
Implicit Types (w : ModelServeur.W) (data : ServeurInterface.t).

(** Resuming one call twice is a call of [create]. *)
Lemma run_alone_is_create data w :
  run [0; 0]%nat ([Called data], w) =
    ([match result (ModelServeur.create data w) with
      | Return serveur => Created serveur
      | Raise e => Rejected e
      end],
     world (ModelServeur.create data w)).
Proof.
  rewrite create_unfold. unfold run, step, result, world. simpl.
  destruct (Repository.getNextId w) as [[i|e] w1]; simpl; [|done].
  pose proof (save_returns
                (ModelServeur.as_data
                   (ModelServeur.new (ServeurInterface.with_id i data))) w1)
    as Hret.
  unfold result in Hret.
  by destruct (Repository.save _ w1) as [[[]|e] w2]; simplify_eq/=.
Qed.

(** C8.  Two pending calls of [create] have an interleaving, on a driver
    without faults, in which both read the same maximum, both return a
    server with the same identifier and both rows are in the table: its
    identifiers are no longer distinct. *)
Theorem concurrent_creates_duplicate_id tbl st data1 data2 :
  ∃ schedule i m1 m2 w',
    run schedule ([Called data1; Called data2], mkWorld tbl [] st [])
      = ([Created m1; Created m2], w') ∧
    ModelServeur.id m1 = Some i ∧
    ModelServeur.id m2 = Some i ∧
    table w' = tbl ++ [ModelServeur.as_data m1; ModelServeur.as_data m2] ∧
    ¬ NoDup (Db.ids (table w')).
Proof.
  set (i := Number.add (default 0 (Db.max_id tbl)) 1).
  exists [0; 1; 0; 1]%nat, i,
    (ModelServeur.new (ServeurInterface.with_id i data1)),
    (ModelServeur.new (ServeurInterface.with_id i data2)).
  eexists. split; [|split; [|split; [|split]]].
  - unfold run, step. simpl. reflexivity.
  - done.
  - done.
  - simpl. by rewrite <- app_assoc.
  - simpl. unfold Db.ids. rewrite <- app_assoc, omap_app. simpl.
    intros Hnd. apply NoDup_app in Hnd as (_ & _ & Hnd).
    apply NoDup_cons in Hnd as [Hnotin _]. apply Hnotin. by left.
Qed.

End ConcurrentFacts.

(** ** Concrete runs *)

Section Runs.
Import Sample.

(** C1 at a concrete input: saving a record without identifier on a
    healthy driver. *)
Lemma save_assigns_next_id_witness :
  get_id blank = None ∧
  Db.safe (table healthy) = true ∧
  ∃ i, result (Repository.getNextId healthy) = Return i ∧
       store (world (Repository.save blank healthy)) !! Repository.toString i
         = Some (set_id i blank) ∧
       table (world (Repository.save blank healthy))
         = match Db.next_fault (world (Repository.getNextId healthy)) with
           | None => table healthy ++ [set_id i blank]
           | Some _ => table healthy
           end ∧
       match Db.next_fault healthy with
       | None =>
           Db.safe (table healthy) = true →
           ∀ j, j ∈ Db.ids (table healthy) → j < i
       | Some _ => i = 0
       end.
Proof.
  split; [reflexivity|]. split; [reflexivity|].
  apply (save_assigns_next_id blank healthy). reflexivity.
Defined.

(** C1 as stated fails when the MAX query fails: the table holds
    identifier 5, and the item is filed and inserted under identifier 0. *)
Lemma save_assigns_next_id_counterexample :
  get_id blank = None ∧
  5 ∈ Db.ids (table unreachable) ∧
  store (world (Repository.save blank unreachable))
    = {[ "0" := set_id 0 blank ]} ∧
  table (world (Repository.save blank unreachable))
    = table unreachable ++ [set_id 0 blank] ∧
  ¬ ∃ i, store (world (Repository.save blank unreachable))
           !! Repository.toString i = Some (set_id i blank) ∧
         ∀ j, j ∈ Db.ids (table unreachable) → j < i.
Proof.
  assert (5 ∈ Db.ids (table unreachable)) as H5 by (by left).
  assert (store (world (Repository.save blank unreachable))
          = {[ "0" := set_id 0 blank ]}) as Hstore by reflexivity.
  do 4 (split; [done|]).
  intros (i & Hi & Hlt). specialize (Hlt 5 H5).
  rewrite Hstore in Hi. apply lookup_singleton_Some in Hi as [_ Hitem].
  assert (Some 0 = Some i) as [= <-]
    by exact (f_equal ServeurInterface.id Hitem).
  lia.
Qed.

(** C4 as stated fails when the SELECT fails: the table holds an active
    global server and the answer is empty. *)
Lemma getServeursActifGlobal_counterexample :
  result (ModelServeur.getServeursActifGlobal unreachable) = Return [] ∧
  filter (λ row, ServeurInterface.actif row = Some true ∧
                 ServeurInterface.global row = Some true)
         (table unreachable)
    = [row 5 minecraft].
Proof. split; reflexivity. Qed.

(** C5 at a concrete input: a driver without faults. *)
Lemma create_then_getById_witness :
  Db.quiet 3 healthy = true ∧
  Db.safe (table healthy) = true ∧
  ∃ i m, result (ModelServeur.create minecraft healthy) = Return m ∧
         m = ModelServeur.new (ServeurInterface.with_id i minecraft) ∧
         ModelServeur.id m = Some i ∧
         result (ModelServeur.getById i
                   (world (ModelServeur.create minecraft healthy)))
           = Return (Some m).
Proof.
  split; [reflexivity|]. split; [reflexivity|].
  apply (create_then_getById minecraft healthy); reflexivity.
Defined.

(** C5 as stated fails when the INSERT fails: [create] returns a server
    with identifier 1, and [getById 1] answers null. *)
Lemma create_then_getById_counterexample :
  result (ModelServeur.create minecraft insert_refused)
    = Return (ModelServeur.new (ServeurInterface.with_id 1 minecraft)) ∧
  result (ModelServeur.getById 1
            (world (ModelServeur.create minecraft insert_refused)))
    = Return None.
Proof. split; reflexivity. Qed.

(** C6 at a concrete input: parameters naming servers 1 and 2, a service
    counting three players everywhere. *)
Lemma getStartedServeursInfo_witness :
  (∀ m w', returns (result (getPlayersCount m w')) = true) ∧
  result (getServeursId healthy) = Return (Some params) ∧
  let r1 := ModelServeur.getById 1 (world (getServeursId healthy)) in
  let r2 := ModelServeur.getById 2 (world r1) in
  ∃ o1 o2,
    result r1 = Return o1 ∧ result r2 = Return o2 ∧
    match o1, o2 with
    | Some p, Some s =>
        ∃ n1 n2 p' s',
          result (getPlayersCount p (world r2)) = Return n1 ∧
          result (getPlayersCount s (world (getPlayersCount p (world r2))))
            = Return n2 ∧
          result (ModelServeur.getStartedServeursInfo
                    getServeursId getPlayersCount healthy)
            = Return (Some [p'; s']) ∧
          ModelServeur.players_online p' = Some n1 ∧
          ModelServeur.players_online s' = Some n2 ∧
          ModelServeur.toJSON p' = ModelServeur.toJSON p ∧
          ModelServeur.toJSON s' = ModelServeur.toJSON s
    | _, _ =>
        result (ModelServeur.getStartedServeursInfo
                  getServeursId getPlayersCount healthy)
          = Return None
    end.
Proof.
  split; [intros; reflexivity|]. split; [reflexivity|].
  apply (getStartedServeursInfo_null_or_both
           getServeursId getPlayersCount healthy (Some params)).
  - intros; reflexivity.
  - reflexivity.
Defined.

(** C6 as stated fails when the service rejects: server 1 is missing, so
    the lookup of the primary server answers null, and the call raises what
    the service raised for server 2 instead of answering null. *)
Lemma getStartedServeursInfo_counterexample :
  result (getServeursId secondary_only) = Return (Some params) ∧
  result (ModelServeur.getById (id_serv_primaire params)
            (world (getServeursId secondary_only)))
    = Return None ∧
  result (ModelServeur.getStartedServeursInfo getServeursId offline
            secondary_only)
    = Raise (DriverError "ETIMEDOUT").
Proof. repeat split; reflexivity. Qed.

(** C7 at a concrete input: the healthy table, whose identifiers are 1
    and 2. *)
Lemma getNextId_max_plus_one_witness :
  Db.safe (table healthy) = true ∧
  ∃ n, result (Repository.getNextId healthy) = Return n ∧
       match Db.next_fault healthy with
       | None =>
           Db.safe (table healthy) = true →
           (Db.ids (table healthy) = [] ∧ n = 1) ∨
           (∃ m, Db.is_max_id (table healthy) m ∧ n = m + 1)
       | Some _ => n = 0
       end.
Proof.
  split; [reflexivity|]. apply (getNextId_max_plus_one healthy).
Defined.

(** C7 as stated fails at 2^53: the MAX query succeeds, the greatest
    identifier is 9007199254740992, and [maxId + 1], an addition of
    doubles, is 9007199254740992 again. *)
Lemma getNextId_max_plus_one_counterexample :
  Db.next_fault saturated = None ∧
  Db.is_max_id (table saturated) 9007199254740992 ∧
  result (Repository.getNextId saturated) = Return 9007199254740992.
Proof.
  split; [reflexivity|]. split; [|reflexivity]. split.
  - by left.
  - intros i Hi. apply list_elem_of_singleton in Hi as ->. lia.
Qed.

(** At 2^53 a call of [create] made on its own already repeats the
    identifier on record. *)
Example create_saturated :
  Db.ids (table (world (ModelServeur.create blank saturated)))
    = [9007199254740992; 9007199254740992].
Proof. reflexivity. Qed.

(** The store keys of identifiers beyond the safe integers are the
    shortest digits that read back: 2^64 and 2^70. *)
Example toString_beyond_safe :
  Repository.toString 18446744073709551616 = "18446744073709552000" ∧
  Repository.toString 1180591620717411303424 = "1.1805916207174113e+21".
Proof. split; reflexivity. Qed.

(** The run behind the witness of C6: both servers, three players each. *)
Example getStartedServeursInfo_healthy :
  result (ModelServeur.getStartedServeursInfo
            getServeursId getPlayersCount healthy)
    = Return (Some [ModelServeur.set_players_online 3
                      (ModelServeur.new (row 1 minecraft));
                    ModelServeur.set_players_online 3
                      (ModelServeur.new (row 2 blank))]).
Proof. reflexivity. Qed.

(** When the lookup of the primary server fails, [getStartedServeursInfo]
    answers null. *)
Example getStartedServeursInfo_unreachable :
  result (ModelServeur.getStartedServeursInfo
            getServeursId getPlayersCount unreachable)
    = Return None.
Proof. reflexivity. Qed.

(** The interleaving of C8 on the healthy table: both servers get
    identifier 3. *)
Example concurrent_creates_healthy :
  (Concurrent.run [0; 1; 0; 1]%nat
     ([Concurrent.Called minecraft; Concurrent.Called blank], healthy)).1
    = [Concurrent.Created
         (ModelServeur.new (ServeurInterface.with_id 3 minecraft));
       Concurrent.Created
         (ModelServeur.new (ServeurInterface.with_id 3 blank))].
Proof. reflexivity. Qed.

(** Run one after the other, the two calls get identifiers 3 and 4. *)
Example sequential_creates_healthy :
  (Concurrent.run [0; 0; 1; 1]%nat
     ([Concurrent.Called minecraft; Concurrent.Called blank], healthy)).1
    = [Concurrent.Created
         (ModelServeur.new (ServeurInterface.with_id 3 minecraft));
       Concurrent.Created
         (ModelServeur.new (ServeurInterface.with_id 4 blank))].
Proof. reflexivity. Qed.

End Runs.

(** * Further properties *)

(** ** Repository.ts: lookups, deletion and the store *)

Section RepositoryMoreFacts.
Context {T : Type} `{Entity T}.
Implicit Types (w : World T) (tbl : list T) (row item : T).

Lemma quiet_next n w : Db.quiet (S n) w = true → Db.next_fault w = None.
Proof.
  unfold Db.quiet, Db.next_fault. destruct (faults w) as [|f fs]; [done|].
  simpl. intros [Hf _]%andb_true_iff. by apply bool_decide_eq_true in Hf.
Qed.

Lemma quiet_tail n w tbl st con :
  Db.quiet (S n) w = true →
  Db.quiet n (mkWorld tbl (tail (faults w)) st con) = true.
Proof.
  unfold Db.quiet. destruct (faults w) as [|f fs]; simpl.
  - by destruct n.
  - by intros [_ Hq]%andb_true_iff.
Qed.

Lemma findFirst_unfold w :
  Repository.findFirst w =
    match Db.next_fault w with
    | Some e =>
        (Return None,
         mkWorld (table w) (tail (faults w)) (store w)
           (console w ++
              [(Some "Erreur lors de la récupération de la première ligne :", e)]))
    | None =>
        (Return (head (table w)),
         mkWorld (table w) (tail (faults w)) (store w) (console w))
    end.
Proof.
  unfold Repository.findFirst, try_catch, mbind, Async_bind, bind.
  rewrite query_unfold. destruct (Db.next_fault w); [done|]. simpl.
  by destruct (table w).
Qed.

Lemma query_passthrough_unfold (stmt : Db.Statement (list T)) w :
  Repository.query stmt w =
    match Db.next_fault w with
    | Some e =>
        (Return [],
         mkWorld (table w) (tail (faults w)) (store w)
           (console w ++ [(Some "Erreur lors de la requête :", e)]))
    | None =>
        (Return (stmt (table w)).1,
         mkWorld (stmt (table w)).2 (tail (faults w)) (store w) (console w))
    end.
Proof.
  unfold Repository.query, try_catch. rewrite query_unfold.
  by destruct (Db.next_fault w).
Qed.

(** The first row a predicate keeps splits the list. *)
Lemma head_filter_Some {A} (f : A → bool) (l : list A) x :
  head (List.filter f l) = Some x →
  ∃ before after,
    l = before ++ x :: after ∧ f x = true ∧ ∀ y, y ∈ before → f y = false.
Proof.
  induction l as [|a l IH]; [done|]. simpl. destruct (f a) eqn:E.
  - intros [= ->]. exists [], l. repeat split; [done|].
    by intros y ?%elem_of_nil.
  - intros (before & after & -> & Hx & Hbefore)%IH.
    exists (a :: before), after. repeat split; [done|].
    intros y [->|Hy]%elem_of_cons; [done|by apply Hbefore].
Qed.

Lemma head_filter_None {A} (f : A → bool) (l : list A) :
  head (List.filter f l) = None → ∀ y, y ∈ l → f y = false.
Proof.
  induction l as [|a l IH]; [by intros _ y ?%elem_of_nil|]. simpl.
  destruct (f a) eqn:E; [done|].
  intros Hnone y [->|Hy]%elem_of_cons; [done|by apply IH].
Qed.

Lemma head_filter_split {A} (f : A → bool) (before after : list A) x :
  f x = true → (∀ y, y ∈ before → f y = false) →
  head (List.filter f (before ++ x :: after)) = Some x.
Proof.
  intros Hx. induction before as [|a before IH]; intros Hbefore; simpl.
  - by rewrite Hx.
  - rewrite (Hbefore a) by by left. apply IH.
    intros y Hy. apply Hbefore. by right.
Qed.

Lemma has_id_false id row : Db.has_id id row = false ↔ get_id row ≠ Some id.
Proof.
  rewrite <- has_id_true. destruct (Db.has_id id row); naive_solver.
Qed.

Lemma filter_has_id_absent tbl id :
  (∀ row, row ∈ tbl → get_id row ≠ Some id) →
  List.filter (Db.has_id id) tbl = [].
Proof.
  induction tbl as [|row tbl IH]; [done|]. intros Habs. simpl.
  assert (Db.has_id id row = false) as ->
    by (apply has_id_false, Habs; by left).
  apply IH. intros r Hr. apply Habs. by right.
Qed.

(** What [DELETE] leaves holds no row with the identifier. *)
Lemma filter_has_id_deleted tbl id :
  List.filter (Db.has_id id)
    (List.filter (λ row, negb (Db.has_id id row)) tbl) = [].
Proof.
  apply filter_has_id_absent. intros row Hrow.
  apply list_elem_of_In, filter_In in Hrow as [_ Hneg].
  apply has_id_false. by destruct (Db.has_id id row).
Qed.

Lemma filter_negb_has_id_absent tbl id :
  (∀ row, row ∈ tbl → get_id row ≠ Some id) →
  List.filter (λ row, negb (Db.has_id id row)) tbl = tbl.
Proof.
  induction tbl as [|row tbl IH]; [done|]. intros Habs. simpl.
  assert (Db.has_id id row = false) as ->
    by (apply has_id_false, Habs; by left).
  simpl. f_equal. apply IH. intros r Hr. apply Habs. by right.
Qed.

Lemma elem_of_without_id tbl id row :
  row ∈ List.filter (λ row, negb (Db.has_id id row)) tbl ↔
  row ∈ tbl ∧ get_id row ≠ Some id.
Proof.
  rewrite list_elem_of_In, filter_In, <- list_elem_of_In.
  by rewrite negb_true_iff, has_id_false.
Qed.

End RepositoryMoreFacts.

Section RepositoryMore.
Context {T : Type} `{Entity T}.
Implicit Types (w : World T) (tbl : list T) (row item : T).

(** X1. [findById] never raises.  When the SELECT fails it answers null.
    When the SELECT succeeds it answers null exactly when no row of the
    table has the identifier, and otherwise the first row of the table that
    has it. *)
Theorem findById_first_match id w :
  ∃ o, result (Repository.findById id w) = Return o ∧
       match Db.next_fault w, o with
       | Some _, _ => o = None
       | None, Some row =>
           ∃ before after,
             table w = before ++ row :: after ∧
             get_id row = Some id ∧
             ∀ r, r ∈ before → get_id r ≠ Some id
       | None, None => ∀ r, r ∈ table w → get_id r ≠ Some id
       end.
Proof.
  rewrite findById_unfold. destruct (Db.next_fault w); [by exists None|].
  eexists; split; [reflexivity|].
  destruct (head (List.filter (Db.has_id id) (table w))) as [row|] eqn:E.
  - apply head_filter_Some in E as (before & after & Htbl & Hid & Hbefore).
    exists before, after. split; [done|]. split; [by apply has_id_true|].
    intros r Hr. by apply has_id_false, Hbefore.
  - intros r Hr. by apply has_id_false, (head_filter_None _ _ E).
Qed.

(** X2. The lookups write nothing: [findById], [findAll], [findFirst] and
    [getNextId] leave the table and the store as they were, whether the
    query succeeds or fails. *)
Theorem lookups_write_nothing id w :
  (table (world (Repository.findById id w)) = table w ∧
   store (world (Repository.findById id w)) = store w) ∧
  (table (world (Repository.findAll w)) = table w ∧
   store (world (Repository.findAll w)) = store w) ∧
  (table (world (Repository.findFirst w)) = table w ∧
   store (world (Repository.findFirst w)) = store w) ∧
  (table (world (Repository.getNextId w)) = table w ∧
   store (world (Repository.getNextId w)) = store w).
Proof.
  unfold Repository.getNextId.
  rewrite findById_unfold, findAll_unfold, findFirst_unfold, fetchNextId_unfold.
  by destruct (Db.next_fault w).
Qed.

(** X3. When the DELETE succeeds, [delete(id)] removes the rows that have
    the identifier and no other: a row is in the table afterwards exactly
    when it was there before and does not have the identifier, and the rows
    kept stay in their order.  When the DELETE fails the table is
    unchanged. *)
Theorem delete_removes_the_id id w :
  match Db.next_fault w with
  | None =>
      (∀ row, row ∈ table (world (Repository.delete id w)) ↔
              row ∈ table w ∧ get_id row ≠ Some id) ∧
      sublist (table (world (Repository.delete id w))) (table w)
  | Some _ => table (world (Repository.delete id w)) = table w
  end.
Proof.
  rewrite delete_unfold. destruct (Db.next_fault w); [done|].
  unfold world; simpl. split.
  - intros row. apply elem_of_without_id.
  - induction (table w) as [|row tbl IH]; [done|]. simpl.
    destruct (negb (Db.has_id id row)); by constructor.
Qed.

(** X4. After a [delete(id)] that reached the database the identifier is
    gone: [findById(id)] then answers null, and a second [delete(id)]
    answers false. *)
Theorem delete_then_gone id w :
  Db.quiet 2 w = true →
  result (Repository.findById id (world (Repository.delete id w)))
    = Return None ∧
  result (Repository.delete id (world (Repository.delete id w)))
    = Return false.
Proof.
  intros Hq. rewrite (delete_unfold id w), (quiet_next _ _ Hq).
  unfold world; simpl.
  pose proof (quiet_tail 1 w
                (List.filter (λ row, negb (Db.has_id id row)) (table w))
                (store w) (console w) Hq) as Hq1.
  rewrite findById_unfold, delete_unfold, (quiet_next _ _ Hq1). simpl.
  by rewrite filter_has_id_deleted.
Qed.

(** X5. [delete] never touches the store map, so an entry filed by [save]
    outlives the deletion of its row: after [save(item)] and then
    [delete] of its identifier, the store still answers the item under that
    identifier, while (when the DELETE succeeds) no row of the table has
    it. *)
Theorem store_outlives_delete item w :
  ∃ i item' w1,
    Repository.assign_id item w = (Return (i, item'), w1) ∧
    store (world (Repository.delete i (world (Repository.save item w))))
      !! Repository.toString i = Some item' ∧
    match Db.next_fault (world (Repository.save item w)) with
    | None =>
        ∀ row,
          row ∈ table (world (Repository.delete i
                                (world (Repository.save item w)))) →
          get_id row ≠ Some i
    | Some _ => True
    end.
Proof.
  destruct (assign_id_returns item w) as (i & item' & w1 & Hid & _).
  exists i, item', w1. split; [done|].
  rewrite delete_unfold. split.
  - rewrite (save_unfold _ _ _ _ _ Hid).
    destruct (Db.next_fault w1); unfold world; simpl;
      match goal with |- context [Db.next_fault ?w'] =>
        destruct (Db.next_fault w') end; simpl; by rewrite lookup_insert_eq.
  - destruct (Db.next_fault (world _)); [done|]. unfold world at 1; simpl.
    by intros row [_ ?]%elem_of_without_id.
Qed.

(** X6. Round trip through the table: an item saved with an identifier no
    row has yet is what [findById] answers for that identifier, when the
    INSERT and the SELECT succeed. *)
Theorem save_then_findById item i w :
  get_id item = Some i →
  (∀ row, row ∈ table w → get_id row ≠ Some i) →
  Db.quiet 2 w = true →
  result (Repository.findById i (world (Repository.save item w)))
    = Return (Some item).
Proof.
  intros Hi Habsent Hq.
  assert (Repository.assign_id item w = (Return (i, item), w)) as Hid.
  { unfold Repository.assign_id. by rewrite Hi. }
  rewrite (save_unfold _ _ _ _ _ Hid), (quiet_next _ _ Hq).
  unfold world; simpl.
  pose proof (quiet_tail 1 w (table w ++ [item])
                (<[Repository.toString i := item]> (store w)) (console w) Hq)
    as Hq1.
  rewrite findById_unfold, (quiet_next _ _ Hq1). simpl.
  rewrite List.filter_app, (filter_has_id_absent _ _ Habsent). simpl.
  by rewrite (proj2 (has_id_true i item) Hi).
Qed.

(** X7. [save] inserts and never updates: when a row with the item's
    identifier is already in the table, [findById] keeps answering that row
    after the [save], whether the INSERT went through or not. *)
Theorem save_never_updates item i w before row after :
  get_id item = Some i →
  table w = before ++ row :: after →
  get_id row = Some i →
  (∀ r, r ∈ before → get_id r ≠ Some i) →
  Db.next_fault (world (Repository.save item w)) = None →
  result (Repository.findById i (world (Repository.save item w)))
    = Return (Some row).
Proof.
  intros Hi Htbl Hrow Hbefore Hnext.
  assert (Repository.assign_id item w = (Return (i, item), w)) as Hid.
  { unfold Repository.assign_id. by rewrite Hi. }
  rewrite findById_unfold, Hnext. unfold result; simpl. do 2 f_equal.
  assert (head (List.filter (Db.has_id i) (table w)) = Some row) as Hhead.
  { rewrite Htbl. apply head_filter_split; [by apply has_id_true|].
    intros y Hy. by apply has_id_false, Hbefore. }
  rewrite (save_unfold _ _ _ _ _ Hid).
  destruct (Db.next_fault w); unfold world; simpl; [done|].
  rewrite List.filter_app.
  destruct (List.filter (Db.has_id i) (table w)); [done|]. by simpl in *.
Qed.


(** X9. No lookup, deletion or passthrough query raises: [findById],
    [findAll], [findFirst], [getNextId], [delete] and [query] end normally
    whatever the driver does, and a failed [findAll] or [query] answers the
    empty sequence. *)
Theorem repository_never_raises id (stmt : Db.Statement (list T)) w :
  returns (result (Repository.findById id w)) = true ∧
  returns (result (Repository.findFirst w)) = true ∧
  returns (result (Repository.getNextId w)) = true ∧
  returns (result (Repository.delete id w)) = true ∧
  (∃ rows, result (Repository.findAll w) = Return rows ∧
           match Db.next_fault w with
           | Some _ => rows = []
           | None => rows = table w
           end) ∧
  (∃ rows, result (Repository.query stmt w) = Return rows ∧
           match Db.next_fault w with
           | Some _ => rows = [] ∧ table (world (Repository.query stmt w)) = table w
           | None => rows = (stmt (table w)).1
           end).
Proof.
  unfold Repository.getNextId.
  rewrite findById_unfold, findAll_unfold, findFirst_unfold, fetchNextId_unfold,
    delete_unfold, query_passthrough_unfold.
  destruct (Db.next_fault w); repeat split; by eexists.
Qed.

(** X10. [getNextId] reserves nothing: asked twice with no INSERT in
    between, it answers the same identifier twice. *)
Theorem getNextId_reserves_nothing w :
  Db.quiet 2 w = true →
  result (Repository.getNextId (world (Repository.getNextId w)))
    = result (Repository.getNextId w).
Proof.
  intros Hq. unfold Repository.getNextId.
  rewrite (fetchNextId_unfold w), (quiet_next _ _ Hq). unfold world; simpl.
  pose proof (quiet_tail 1 w (table w) (store w) (console w) Hq) as Hq1.
  by rewrite fetchNextId_unfold, (quiet_next _ _ Hq1).
Qed.

End RepositoryMore.

(** ** model-serveur.ts: creation, deletion and listings *)

Section ModelServeurMoreFacts.
Implicit Types (w : ModelServeur.W) (data row : ServeurInterface.t)
  (m : ModelServeur.t) (tbl : list ServeurInterface.t).

(** The identifier [getNextId] computes is above every identifier of the
    table. *)
Lemma next_id_fresh tbl j :
  j ∈ Db.ids tbl → j < default 0 (Db.max_id tbl) + 1.
Proof.
  intros Hj. destruct (Db.max_id tbl) as [k|] eqn:E; simpl.
  - apply max_id_Some in E as [_ Hle]. specialize (Hle j Hj). lia.
  - apply max_id_None in E. rewrite E in Hj. by apply elem_of_nil in Hj.
Qed.

Lemma next_id_absent tbl row :
  row ∈ tbl → get_id row ≠ Some (default 0 (Db.max_id tbl) + 1).
Proof.
  intros Hrow Hid.
  assert (default 0 (Db.max_id tbl) + 1 ∈ Db.ids tbl) as Hin
    by (apply elem_of_ids; by exists row).
  apply next_id_fresh in Hin. lia.
Qed.

Lemma ids_snoc tbl row i :
  get_id row = Some i → Db.ids (tbl ++ [row]) = Db.ids tbl ++ [i].
Proof. intros Hi. unfold Db.ids. rewrite omap_app. simpl in *. by rewrite Hi. Qed.

(** After the row with the next identifier is appended, that identifier is
    the greatest. *)
Lemma max_id_snoc tbl row :
  get_id row = Some (default 0 (Db.max_id tbl) + 1) →
  Db.max_id (tbl ++ [row]) = Some (default 0 (Db.max_id tbl) + 1).
Proof.
  intros Hi. apply max_id_Some. unfold Db.is_max_id.
  rewrite (ids_snoc _ _ _ Hi). split.
  - apply elem_of_app. right. by left.
  - intros j [Hj|Hj]%elem_of_app.
    + apply next_id_fresh in Hj. lia.
    + apply list_elem_of_singleton in Hj as ->. lia.
Qed.

(** [create] when the MAX query succeeds: the server it returns, and the
    table it leaves according to the fate of the INSERT. *)
Lemma create_after_max data w :
  Db.next_fault w = None →
  let i := Number.add (default 0 (Db.max_id (table w))) 1 in
  let m := ModelServeur.new (ServeurInterface.with_id i data) in
  let w1 := mkWorld (table w) (tail (faults w)) (store w) (console w) in
  ModelServeur.create data w =
    (Return m,
     match Db.next_fault w1 with
     | Some e =>
         mkWorld (table w) (tail (tail (faults w)))
           (<[Repository.toString i := ModelServeur.as_data m]> (store w))
           (console w ++
              [(Some "Erreur lors de la sauvegarde dans la base de données :", e)])
     | None =>
         mkWorld (table w ++ [ModelServeur.as_data m]) (tail (tail (faults w)))
           (<[Repository.toString i := ModelServeur.as_data m]> (store w))
           (console w)
     end).
Proof.
  intros Hf i m w1. rewrite create_unfold.
  unfold Repository.getNextId. rewrite fetchNextId_unfold, Hf. simpl.
  fold i m w1. f_equal.
  assert (Repository.assign_id (ModelServeur.as_data m) w1
          = (Return (i, ModelServeur.as_data m), w1)) as Hid by done.
  unfold world; simpl. fold w1. rewrite (save_unfold _ _ _ _ _ Hid).
  by destruct (Db.next_fault w1).
Qed.

(** The same on a table of safe integers, where the identifier is the
    integer above the greatest one. *)
Lemma create_after_max_safe data w :
  Db.next_fault w = None →
  Db.safe (table w) = true →
  let i := default 0 (Db.max_id (table w)) + 1 in
  let m := ModelServeur.new (ServeurInterface.with_id i data) in
  let w1 := mkWorld (table w) (tail (faults w)) (store w) (console w) in
  ModelServeur.create data w =
    (Return m,
     match Db.next_fault w1 with
     | Some e =>
         mkWorld (table w) (tail (tail (faults w)))
           (<[Repository.toString i := ModelServeur.as_data m]> (store w))
           (console w ++
              [(Some "Erreur lors de la sauvegarde dans la base de données :", e)])
     | None =>
         mkWorld (table w ++ [ModelServeur.as_data m]) (tail (tail (faults w)))
           (<[Repository.toString i := ModelServeur.as_data m]> (store w))
           (console w)
     end).
Proof.
  intros Hf Hsafe. rewrite (create_after_max data w Hf).
  by rewrite (next_id_safe _ Hsafe).
Qed.

(** Appending a row with a safe identifier keeps the table safe. *)
Lemma safe_snoc tbl row i :
  Db.safe tbl = true → get_id row = Some i →
  Number.isSafeInteger i = true → Db.safe (tbl ++ [row]) = true.
Proof.
  intros Hsafe Hi Hisafe. unfold Db.safe in *.
  rewrite (ids_snoc _ _ _ Hi), forallb_app, Hsafe. simpl. by rewrite Hisafe.
Qed.

Lemma model_delete_unfold id w :
  ModelServeur.delete id w = Repository.delete id w.
Proof.
  unfold ModelServeur.delete, mbind, Async_bind, bind.
  rewrite delete_unfold. by destruct (Db.next_fault w).
Qed.

Lemma getAll_unfold w :
  ModelServeur.getAll w =
    match Db.next_fault w with
    | Some e =>
        (Return [],
         mkWorld (table w) (tail (faults w)) (store w)
           (console w ++
              [(Some "Erreur lors de la recherche de tous les éléments :", e)]))
    | None =>
        (Return (ModelServeur.new <$> table w),
         mkWorld (table w) (tail (faults w)) (store w) (console w))
    end.
Proof.
  unfold ModelServeur.getAll, mbind, Async_bind, bind.
  rewrite findAll_unfold. by destruct (Db.next_fault w).
Qed.

Lemma sublist_list_filter {A} (f : A → bool) (l : list A) :
  sublist (List.filter f l) l.
Proof.
  induction l as [|a l IH]; [done|]. simpl. destruct (f a); by constructor.
Qed.

End ModelServeurMoreFacts.

Section ModelServeurMore.
Implicit Types (w : ModelServeur.W) (data row : ServeurInterface.t)
  (m : ModelServeur.t) (tbl : list ServeurInterface.t).

(** X11. [create] keeps the identifiers of the table distinct, as long as
    its MAX query succeeds and every identifier of the table is a safe
    integer: identifiers that were pairwise different before the call are
    pairwise different after it, whether the INSERT goes through or not. *)
Theorem create_keeps_ids_distinct data w :
  Db.next_fault w = None →
  Db.safe (table w) = true →
  NoDup (Db.ids (table w)) →
  NoDup (Db.ids (table (world (ModelServeur.create data w)))).
Proof.
  intros Hf Hsafe Hnd. rewrite (create_after_max_safe data w Hf Hsafe).
  unfold world; simpl.
  destruct (Db.next_fault
              (mkWorld (table w) (tail (faults w)) (store w) (console w)));
    simpl; [done|].
  rewrite (ids_snoc _ _ (default 0 (Db.max_id (table w)) + 1)) by done.
  apply NoDup_app. split; [done|]. split; [|apply NoDup_singleton].
  intros j Hj ->%list_elem_of_singleton. apply next_id_fresh in Hj. lia.
Qed.

(** X12. Two calls of [create] made one after the other, on a driver that
    answers and a table whose identifiers, and the integer above the
    greatest of them, are safe integers, get consecutive identifiers. *)
Theorem create_twice_consecutive data1 data2 w :
  Db.quiet 4 w = true →
  Db.safe (table w) = true →
  Number.isSafeInteger (default 0 (Db.max_id (table w)) + 1) = true →
  ∃ i m1 m2,
    result (ModelServeur.create data1 w) = Return m1 ∧
    ModelServeur.id m1 = Some i ∧
    result (ModelServeur.create data2 (world (ModelServeur.create data1 w)))
      = Return m2 ∧
    ModelServeur.id m2 = Some (i + 1).
Proof.
  intros Hq Hsafe Hroom.
  rewrite (create_after_max_safe data1 w (quiet_next _ _ Hq) Hsafe).
  pose proof (quiet_tail 3 w (table w) (store w) (console w) Hq) as Hq1.
  rewrite (quiet_next _ _ Hq1). unfold world; simpl.
  set (i := default 0 (Db.max_id (table w)) + 1) in *.
  set (m1 := ModelServeur.new (ServeurInterface.with_id i data1)).
  pose proof (quiet_tail 2 _ (table w ++ [ModelServeur.as_data m1])
                (<[Repository.toString i := ModelServeur.as_data m1]> (store w))
                (console w) Hq1) as Hq2.
  simpl in Hq2.
  assert (Db.safe (table w ++ [ModelServeur.as_data m1]) = true) as Hsafe1
    by by apply (safe_snoc _ _ i).
  rewrite (create_after_max_safe data2 _ (quiet_next _ _ Hq2) Hsafe1). simpl.
  exists i, m1. eexists. do 3 (split; [reflexivity|]). simpl.
  unfold ModelServeur.Model_constructor. simpl.
  by rewrite (max_id_snoc (table w) (ModelServeur.as_data m1)).
Qed.

(** X13. Life cycle: when the driver answers and every identifier of the
    table is a safe integer, a server made by [create] is deleted by
    [delete] on its identifier, which answers true; [getById] then answers
    null, and the table is again what it was before the [create]. *)
Theorem create_delete_restores data w :
  Db.quiet 4 w = true →
  Db.safe (table w) = true →
  ∃ i m,
    result (ModelServeur.create data w) = Return m ∧
    ModelServeur.id m = Some i ∧
    result (ModelServeur.delete i (world (ModelServeur.create data w)))
      = Return true ∧
    table (world (ModelServeur.delete i (world (ModelServeur.create data w))))
      = table w ∧
    result (ModelServeur.getById i
              (world (ModelServeur.delete i
                        (world (ModelServeur.create data w)))))
      = Return None.
Proof.
  intros Hq Hsafe.
  rewrite (create_after_max_safe data w (quiet_next _ _ Hq) Hsafe).
  pose proof (quiet_tail 3 w (table w) (store w) (console w) Hq) as Hq1.
  rewrite (quiet_next _ _ Hq1). unfold world at 1 2 4; simpl.
  set (i := default 0 (Db.max_id (table w)) + 1).
  set (m := ModelServeur.new (ServeurInterface.with_id i data)).
  pose proof (quiet_tail 2 _ (table w ++ [ModelServeur.as_data m])
                (<[Repository.toString i := ModelServeur.as_data m]> (store w))
                (console w) Hq1) as Hq2.
  simpl in Hq2.
  exists i, m. do 2 (split; [reflexivity|]).
  rewrite model_delete_unfold, delete_unfold, (quiet_next _ _ Hq2).
  unfold result, world; simpl.
  assert (Db.has_id i (ModelServeur.as_data m) = true) as Hm
    by by apply has_id_true.
  rewrite !List.filter_app. simpl. rewrite Hm. simpl.
  rewrite (filter_has_id_absent (table w) i)
    by (intros row Hrow; by apply next_id_absent).
  rewrite (filter_negb_has_id_absent (table w) i)
    by (intros row Hrow; by apply next_id_absent).
  rewrite app_nil_r. do 2 (split; [done|]).
  rewrite getById_unfold.
  pose proof (quiet_tail 1 _ (table w)
                (<[Repository.toString i := ModelServeur.as_data m]> (store w))
                (console w) Hq2) as Hq3.
  simpl in Hq3. rewrite (quiet_next _ _ Hq3). simpl.
  by rewrite (filter_has_id_absent (table w) i)
    by (intros row Hrow; by apply next_id_absent).
Qed.

(** X14. [getAll] never raises and wraps every row of the table, in order,
    keeping its identifier; on the same world [getServeursActifGlobal]
    answers a sublist of what [getAll] answers.  A failed SELECT makes both
    answer the empty sequence. *)
Theorem getServeursActifGlobal_sublist_getAll w :
  ∃ all selected,
    result (ModelServeur.getAll w) = Return all ∧
    result (ModelServeur.getServeursActifGlobal w) = Return selected ∧
    sublist selected all ∧
    match Db.next_fault w with
    | None =>
        length all = length (table w) ∧
        ModelServeur.id <$> all = ServeurInterface.id <$> table w
    | Some _ => all = [] ∧ selected = []
    end.
Proof.
  rewrite getAll_unfold.
  unfold ModelServeur.getServeursActifGlobal, mbind, Async_bind, bind.
  rewrite findAll_unfold. destruct (Db.next_fault w); simpl.
  - by exists [], [].
  - eexists _, _. do 2 (split; [reflexivity|]). split.
    + apply fmap_sublist, sublist_list_filter.
    + split; [by rewrite length_fmap|].
      rewrite <- list_fmap_compose. by apply list_fmap_ext.
Qed.

End ModelServeurMore.

(** ** model-serveur.ts: the listing by game *)

Section ByGameFacts.
Context {A : Type}.
Implicit Types (callback : A → option bool) (l kept : list A).

Lemma filter_raising_Some callback l kept :
  ModelServeur.filter_raising callback l = Some kept →
  (∀ x, x ∈ l → is_Some (callback x)) ∧
  kept = List.filter (λ x, default false (callback x)) l.
Proof.
  revert kept. induction l as [|x l IH]; intros kept; simpl.
  - intros [= <-]. split; [by intros x ?%elem_of_nil|done].
  - destruct (callback x) as [keep|] eqn:E; simpl; [|done].
    destruct (ModelServeur.filter_raising callback l) as [kept'|]; simpl;
      [|done].
    intros [= <-]. destruct (IH kept' eq_refl) as [Hall ->]. split.
    + intros y [->|Hy]%elem_of_cons; [by rewrite E|by apply Hall].
    + by destruct keep.
Qed.

Lemma filter_raising_None callback l :
  ModelServeur.filter_raising callback l = None →
  ∃ x, x ∈ l ∧ callback x = None.
Proof.
  induction l as [|x l IH]; simpl; [done|].
  destruct (callback x) as [keep|] eqn:E; simpl.
  - destruct (ModelServeur.filter_raising callback l); simpl; [done|].
    intros _. destruct IH as (y & Hy & Hnone); [done|].
    exists y. split; [by right|done].
  - intros _. exists x. split; [by left|done].
Qed.

Lemma sublist_list_filter_impl (f g : A → bool) l :
  (∀ x, f x = true → g x = true) →
  sublist (List.filter f l) (List.filter g l).
Proof.
  intros Himpl. induction l as [|a l IH]; [done|]. simpl.
  destruct (f a) eqn:E.
  - rewrite (Himpl a E). by constructor.
  - destruct (g a); [by constructor|done].
Qed.

End ByGameFacts.

Section ByGame.
Variable toLowerCase : string → string.
Implicit Types (w : ModelServeur.W) (row : ServeurInterface.t) (game : string).

Lemma actif_global_game_None game row :
  ModelServeur.actif_global_game toLowerCase game row = None ↔
  ServeurInterface.actif row = Some true ∧
  ServeurInterface.global row = Some true ∧
  ServeurInterface.jeu row = None.
Proof.
  unfold ModelServeur.actif_global_game.
  destruct (ServeurInterface.actif row) as [[]|],
           (ServeurInterface.global row) as [[]|],
           (ServeurInterface.jeu row); simpl;
    (split; [intros ?|intros (? & ? & ?)]); by simplify_eq.
Qed.

Lemma actif_global_game_true game row :
  default false (ModelServeur.actif_global_game toLowerCase game row) = true ↔
  ServeurInterface.actif row = Some true ∧
  ServeurInterface.global row = Some true ∧
  toLowerCase <$> ServeurInterface.jeu row = Some (toLowerCase game).
Proof.
  unfold ModelServeur.actif_global_game.
  destruct (ServeurInterface.actif row) as [[]|],
           (ServeurInterface.global row) as [[]|],
           (ServeurInterface.jeu row) as [jeu|]; simpl;
    rewrite ?bool_decide_eq_true;
    (split; [intros Hlow|intros (? & ? & ?)]); simplify_eq; try done.
  by rewrite Hlow.
Qed.

Lemma byGame_unfold game w :
  ModelServeur.getServeursActifGlobalByGame toLowerCase game w =
    match Db.next_fault w with
    | Some e =>
        (inr [],
         mkWorld (table w) (tail (faults w)) (store w)
           (console w ++
              [(Some "Erreur lors de la recherche de tous les éléments :", e)]))
    | None =>
        (match ModelServeur.filter_raising
                 (ModelServeur.actif_global_game toLowerCase game) (table w)
         with
         | Some kept => inr (ModelServeur.new <$> kept)
         | None => inl ModelServeur.TypeError
         end,
         mkWorld (table w) (tail (faults w)) (store w) (console w))
    end.
Proof.
  unfold ModelServeur.getServeursActifGlobalByGame.
  rewrite findAll_unfold. destruct (Db.next_fault w); [done|].
  by destruct (ModelServeur.filter_raising _ _).
Qed.

(** X15. How [getServeursActifGlobalByGame(game)] ends.  A failed SELECT is
    swallowed and the answer is empty.  When the SELECT succeeds, the call
    raises a TypeError exactly when some active global row has no [jeu];
    otherwise it answers the rows that are active, global and whose [jeu]
    equals [game] after both are lowered, each wrapped as a [ModelServeur],
    in table order.  It never writes to the table. *)
Theorem getServeursActifGlobalByGame_outcome game w :
  table (ModelServeur.getServeursActifGlobalByGame toLowerCase game w).2
    = table w ∧
  match Db.next_fault w,
        (ModelServeur.getServeursActifGlobalByGame toLowerCase game w).1 with
  | Some _, outcome => outcome = inr []
  | None, inr l =>
      (∀ row, row ∈ table w →
              ServeurInterface.actif row = Some true →
              ServeurInterface.global row = Some true →
              is_Some (ServeurInterface.jeu row)) ∧
      l = ModelServeur.new <$>
            filter (λ row, ServeurInterface.actif row = Some true ∧
                           ServeurInterface.global row = Some true ∧
                           toLowerCase <$> ServeurInterface.jeu row
                             = Some (toLowerCase game))
                   (table w)
  | None, inl ModelServeur.TypeError =>
      ∃ row, row ∈ table w ∧
             ServeurInterface.actif row = Some true ∧
             ServeurInterface.global row = Some true ∧
             ServeurInterface.jeu row = None
  | None, inl (ModelServeur.DriverFailure _) => False
  end.
Proof.
  rewrite byGame_unfold. destruct (Db.next_fault w); [done|]. simpl.
  split; [done|].
  destruct (ModelServeur.filter_raising _ _) as [kept|] eqn:E.
  - apply filter_raising_Some in E as [Hall ->]. split.
    + intros row Hrow Ha Hg.
      destruct (ServeurInterface.jeu row) eqn:Hj; [done|].
      destruct (Hall row Hrow) as [b Hb].
      assert (ModelServeur.actif_global_game toLowerCase game row = None)
        as Hnone by by apply actif_global_game_None.
      congruence.
    + f_equal. clear Hall. induction (table w) as [|row tbl IH]; [done|].
      rewrite filter_cons. simpl. rewrite IH.
      destruct (default false _) eqn:Hk.
      * apply actif_global_game_true in Hk. by rewrite decide_True.
      * rewrite decide_False; [done|].
        intros Hk'%actif_global_game_true. congruence.
  - apply filter_raising_None in E as (row & Hrow & Hnone).
    exists row. split; [done|]. by apply (actif_global_game_None game).
Qed.

(** X16. The listing by game does not look at the case of its argument:
    two names that lower to the same string give the same outcome. *)
Theorem getServeursActifGlobalByGame_ignores_case game game' w :
  toLowerCase game = toLowerCase game' →
  ModelServeur.getServeursActifGlobalByGame toLowerCase game w
    = ModelServeur.getServeursActifGlobalByGame toLowerCase game' w.
Proof.
  intros Hlow. rewrite !byGame_unfold.
  assert (ModelServeur.actif_global_game toLowerCase game
          = ModelServeur.actif_global_game toLowerCase game') as Hsame; [|by rewrite Hsame].
  unfold ModelServeur.actif_global_game. by rewrite Hlow.
Qed.

(** X17. Whenever the listing by game answers, its answer is a sublist of
    what [getServeursActifGlobal] answers on the same world. *)
Theorem getServeursActifGlobalByGame_narrows game w :
  match (ModelServeur.getServeursActifGlobalByGame toLowerCase game w).1 with
  | inr l =>
      ∃ selected,
        result (ModelServeur.getServeursActifGlobal w) = Return selected ∧
        sublist l selected
  | inl _ => True
  end.
Proof.
  rewrite byGame_unfold.
  unfold ModelServeur.getServeursActifGlobal, mbind, Async_bind, bind.
  rewrite findAll_unfold. destruct (Db.next_fault w); simpl.
  { by exists []. }
  destruct (ModelServeur.filter_raising _ _) as [kept|] eqn:E; [|done].
  apply filter_raising_Some in E as [_ ->].
  eexists; split; [reflexivity|].
  apply fmap_sublist, sublist_list_filter_impl.
  intros row (Ha & Hg & _)%actif_global_game_true. by rewrite Ha, Hg.
Qed.

End ByGame.

(** ** model-serveur.ts: serialisation and the started servers *)

Section SerialisationMore.
Implicit Types (m : ModelServeur.t).

Lemma toJSON_lookups m :
  ModelServeur.toJSON m !! "id"
    = Some (ModelServeur.js_number (ModelServeur.id m)) ∧
  ModelServeur.toJSON m !! "nom"
    = Some (ModelServeur.JsString (ModelServeur.nom m)) ∧
  ModelServeur.toJSON m !! "jeu"
    = Some (ModelServeur.JsString (ModelServeur.jeu m)) ∧
  ModelServeur.toJSON m !! "version"
    = Some (ModelServeur.JsString (ModelServeur.version m)) ∧
  ModelServeur.toJSON m !! "modpack"
    = Some (ModelServeur.JsString (ModelServeur.modpack m)) ∧
  ModelServeur.toJSON m !! "modpack_url"
    = Some (ModelServeur.JsString (ModelServeur.modpack_url m)) ∧
  ModelServeur.toJSON m !! "nom_monde"
    = Some (ModelServeur.JsString (ModelServeur.nom_monde m)) ∧
  ModelServeur.toJSON m !! "embed_color"
    = Some (ModelServeur.JsString (ModelServeur.embed_color m)) ∧
  ModelServeur.toJSON m !! "contenaire"
    = Some (ModelServeur.JsString (ModelServeur.contenaire m)) ∧
  ModelServeur.toJSON m !! "description"
    = Some (ModelServeur.JsString (ModelServeur.description m)) ∧
  ModelServeur.toJSON m !! "actif"
    = Some (ModelServeur.JsBoolean (ModelServeur.actif m)) ∧
  ModelServeur.toJSON m !! "global"
    = Some (ModelServeur.JsBoolean (ModelServeur.global m)) ∧
  ModelServeur.toJSON m !! "type"
    = Some (ModelServeur.JsString (ModelServeur.type m)) ∧
  ModelServeur.toJSON m !! "image"
    = Some (ModelServeur.JsString (ModelServeur.image m)).
Proof. repeat split; reflexivity. Qed.

Lemma js_number_inj o1 o2 :
  ModelServeur.js_number o1 = ModelServeur.js_number o2 → o1 = o2.
Proof. destruct o1, o2; simpl; congruence. Qed.

(** X18. [toJSON] loses the player count and nothing else: two servers have
    the same JSON form exactly when they agree on every field other than
    [players_online]. *)
Theorem toJSON_loses_only_players_online m1 m2 :
  ModelServeur.toJSON m1 = ModelServeur.toJSON m2 ↔
  ModelServeur.set_players_online 0 m1 = ModelServeur.set_players_online 0 m2.
Proof.
  split.
  - intros Hjson.
    destruct (toJSON_lookups m1)
      as (A1 & A2 & A3 & A4 & A5 & A6 & A7 & A8 & A9 & A10 & A11 & A12 & A13 & A14).
    destruct (toJSON_lookups m2)
      as (B1 & B2 & B3 & B4 & B5 & B6 & B7 & B8 & B9 & B10 & B11 & B12 & B13 & B14).
    rewrite Hjson in *.
    rewrite B1 in A1. rewrite B2 in A2. rewrite B3 in A3. rewrite B4 in A4.
    rewrite B5 in A5. rewrite B6 in A6. rewrite B7 in A7. rewrite B8 in A8.
    rewrite B9 in A9. rewrite B10 in A10. rewrite B11 in A11.
    rewrite B12 in A12. rewrite B13 in A13. rewrite B14 in A14.
    apply (inj Some), js_number_inj in A1. clear Hjson.
    destruct m1, m2. cbn [ModelServeur.id ModelServeur.nom ModelServeur.jeu
      ModelServeur.version ModelServeur.modpack ModelServeur.modpack_url
      ModelServeur.nom_monde ModelServeur.embed_color ModelServeur.contenaire
      ModelServeur.description ModelServeur.actif ModelServeur.global
      ModelServeur.type ModelServeur.image ModelServeur.players_online
      ModelServeur.set_players_online] in *.
    injection A2 as ->. injection A3 as ->. injection A4 as ->.
    injection A5 as ->. injection A6 as ->. injection A7 as ->.
    injection A8 as ->. injection A9 as ->. injection A10 as ->.
    injection A11 as ->. injection A12 as ->. injection A13 as ->.
    injection A14 as ->. by subst.
  - intros Heq.
    change (ModelServeur.toJSON (ModelServeur.set_players_online 0 m1)
            = ModelServeur.toJSON (ModelServeur.set_players_online 0 m2)).
    by rewrite Heq.
Qed.

End SerialisationMore.

Section StartedServeursMore.
Variable getServeursId : Async ModelServeur.W (option ServeurParametersInterface).
Variable getPlayersCount : ModelServeur.t → Async ModelServeur.W Z.
Implicit Types (w : ModelServeur.W) (m : ModelServeur.t).

(** X19. [getStartedServeursInfo] does not catch what the player-count
    service raises.  When the service rejects the call made for the primary
    server, or the primary server is missing and the service rejects the
    call made for the secondary one, [getStartedServeursInfo] raises that
    error; in the second case it does so although one of the two servers is
    missing. *)
Theorem getStartedServeursInfo_service_rejection w params e :
  result (getServeursId w) = Return (Some params) →
  (let r1 := ModelServeur.getById (id_serv_primaire params)
               (world (getServeursId w)) in
   let r2 := ModelServeur.getById (id_serv_secondaire params) (world r1) in
   (∃ p, result r1 = Return (Some p) ∧
         result (getPlayersCount p (world r2)) = Raise e) ∨
   (result r1 = Return None ∧
    ∃ s, result r2 = Return (Some s) ∧
         result (getPlayersCount s (world r2)) = Raise e)) →
  result (ModelServeur.getStartedServeursInfo getServeursId getPlayersCount w)
    = Raise e.
Proof.
  intros Hids Hcase.
  unfold ModelServeur.getStartedServeursInfo, ModelServeur.getStartedServeursId,
    mbind, Async_bind, bind.
  unfold result, world in *.
  destruct (getServeursId w) as [c w0]. simpl in Hids. subst c.
  cbn [fst snd] in *.
  destruct (ModelServeur.getById (id_serv_primaire params) w0) as [c1 w1].
  cbn [fst snd] in *.
  destruct (getById_returns (id_serv_secondaire params) w1) as [o2 Ho2].
  unfold result in Ho2.
  destruct (ModelServeur.getById (id_serv_secondaire params) w1) as [c2 w2].
  cbn [fst snd] in *. subst c2.
  destruct Hcase as [(p & -> & Hp)|(-> & s & [= ->] & Hs)].
  - rewrite enrich_unfold.
    destruct (getPlayersCount p w2) as [c w3]. simpl in Hp. by subst c.
  - rewrite !enrich_unfold.
    destruct (getPlayersCount s w2) as [c w3]. simpl in Hs. by subst c.
Qed.

End StartedServeursMore.

(** ** routes/Route.ts *)

Section RoutesMore.
Implicit Types (routes : list Routes.t) (API_URL type : option string).

Lemma string_length_app (s1 s2 : string) :
  String.length (s1 +:+ s2) = (String.length s1 + String.length s2)%nat.
Proof. induction s1 as [|c s1 IH]; simpl; [done|]. by rewrite IH. Qed.

Lemma string_app_fixed (p r : string) : p +:+ r = r → p = EmptyString.
Proof.
  intros Heq. apply (f_equal String.length) in Heq.
  rewrite string_length_app in Heq. destruct p; [done|]. simpl in Heq. lia.
Qed.

(** X20. [registerRoutes] rewrites the routes in place and is not
    idempotent: every route gets the prefix built from [API_URL] and the
    type (an empty type counts as no type) while its other fields are kept,
    and registering the same routes again puts the prefix a second time.
    The second registration changes nothing only when there is no route or
    the prefix is empty. *)
Theorem registerRoutes_twice API_URL routes type :
  (Routes.route <$> Routes.registerRoutes API_URL routes type
     = (λ r, Routes.prefix API_URL type +:+ Routes.route r) <$> routes) ∧
  (Routes.route <$>
     Routes.registerRoutes API_URL
       (Routes.registerRoutes API_URL routes type) type
     = (λ r, Routes.prefix API_URL type
               +:+ (Routes.prefix API_URL type +:+ Routes.route r))
         <$> routes) ∧
  (Routes.alias <$> Routes.registerRoutes API_URL routes type
     = Routes.alias <$> routes) ∧
  (Routes.method <$> Routes.registerRoutes API_URL routes type
     = Routes.method <$> routes) ∧
  (Routes.registerRoutes API_URL routes (Some EmptyString)
     = Routes.registerRoutes API_URL routes None) ∧
  (Routes.registerRoutes API_URL
     (Routes.registerRoutes API_URL routes type) type
     = Routes.registerRoutes API_URL routes type
   ↔ routes = [] ∨ Routes.prefix API_URL type = EmptyString).
Proof.
  unfold Routes.registerRoutes.
  split; [by rewrite <- list_fmap_compose|].
  split; [by rewrite <- !list_fmap_compose|].
  split; [by rewrite <- list_fmap_compose|].
  split; [by rewrite <- list_fmap_compose|].
  split; [done|].
  split.
  - intros Htwice. destruct routes as [|r routes]; [by left|]. right.
    simpl in Htwice. injection Htwice as Hr _.
    by apply string_app_fixed in Hr.
  - intros [->|Hp]; [done|].
    rewrite <- list_fmap_compose. apply list_fmap_ext. intros _ r _.
    unfold Routes.register. simpl. by rewrite Hp.
Qed.

End RoutesMore.

(** ** Concrete runs of the further properties *)

Section MoreRuns.
Import Sample.

(** X4 on the healthy table: server 1 is deleted, then looked up and
    deleted again. *)
Lemma delete_then_gone_witness :
  Db.quiet 2 healthy = true ∧
  result (Repository.findById 1 (world (Repository.delete 1 healthy)))
    = Return None ∧
  result (Repository.delete 1 (world (Repository.delete 1 healthy)))
    = Return false.
Proof.
  split; [reflexivity|]. apply (delete_then_gone 1 healthy). reflexivity.
Defined.

(** X6 on the healthy table: a row saved under the unused identifier 9. *)
Lemma save_then_findById_witness :
  get_id (row 9 blank) = Some 9 ∧
  (∀ r, r ∈ table healthy → get_id r ≠ Some 9) ∧
  Db.quiet 2 healthy = true ∧
  result (Repository.findById 9 (world (Repository.save (row 9 blank) healthy)))
    = Return (Some (row 9 blank)).
Proof.
  assert (∀ r, r ∈ table healthy → get_id r ≠ Some 9) as Habsent.
  { intros r Hr. apply elem_of_cons in Hr as [->|Hr]; [discriminate|].
    apply elem_of_cons in Hr as [->|Hr]; [discriminate|].
    by apply elem_of_nil in Hr. }
  split; [reflexivity|]. split; [exact Habsent|]. split; [reflexivity|].
  apply (save_then_findById (row 9 blank) 9 healthy);
    [reflexivity|exact Habsent|reflexivity].
Defined.

(** X7 on the healthy table: a second record saved under identifier 1 does
    not replace the first. *)
Lemma save_never_updates_witness :
  get_id (row 1 blank) = Some 1 ∧
  table healthy = [] ++ row 1 minecraft :: [row 2 blank] ∧
  get_id (row 1 minecraft) = Some 1 ∧
  (∀ r : ServeurInterface.t, r ∈ [] → get_id r ≠ Some 1) ∧
  Db.next_fault (world (Repository.save (row 1 blank) healthy)) = None ∧
  result (Repository.findById 1 (world (Repository.save (row 1 blank) healthy)))
    = Return (Some (row 1 minecraft)).
Proof.
  assert (∀ r : ServeurInterface.t, r ∈ [] → get_id r ≠ Some 1) as Hnil.
  { intros r Hr. by apply elem_of_nil in Hr. }
  split; [reflexivity|]. split; [reflexivity|]. split; [reflexivity|].
  split; [exact Hnil|]. split; [reflexivity|].
  apply (save_never_updates (row 1 blank) 1 healthy [] (row 1 minecraft)
           [row 2 blank]); [reflexivity|reflexivity|reflexivity|exact Hnil|reflexivity].
Defined.

(** X10 on the healthy table. *)
Lemma getNextId_reserves_nothing_witness :
  Db.quiet 2 healthy = true ∧
  result (Repository.getNextId (world (Repository.getNextId healthy)))
    = result (Repository.getNextId healthy).
Proof.
  split; [reflexivity|]. apply (getNextId_reserves_nothing healthy). reflexivity.
Defined.

(** X11 on the healthy table, whose identifiers are 1 and 2. *)
Lemma create_keeps_ids_distinct_witness :
  Db.next_fault healthy = None ∧
  Db.safe (table healthy) = true ∧
  NoDup (Db.ids (table healthy)) ∧
  NoDup (Db.ids (table (world (ModelServeur.create minecraft healthy)))).
Proof.
  assert (NoDup (Db.ids (table healthy))) as Hnd.
  { change (NoDup [1; 2]). apply NoDup_cons. split.
    - intros Hin. apply list_elem_of_singleton in Hin. discriminate.
    - apply NoDup_singleton. }
  split; [reflexivity|]. split; [reflexivity|]. split; [exact Hnd|].
  apply (create_keeps_ids_distinct minecraft healthy);
    [reflexivity|reflexivity|exact Hnd].
Defined.

(** X12 on the healthy table: identifiers 3 and 4. *)
Lemma create_twice_consecutive_witness :
  Db.quiet 4 healthy = true ∧
  Db.safe (table healthy) = true ∧
  Number.isSafeInteger (default 0 (Db.max_id (table healthy)) + 1) = true ∧
  ∃ i m1 m2,
    result (ModelServeur.create minecraft healthy) = Return m1 ∧
    ModelServeur.id m1 = Some i ∧
    result (ModelServeur.create blank
              (world (ModelServeur.create minecraft healthy)))
      = Return m2 ∧
    ModelServeur.id m2 = Some (i + 1).
Proof.
  do 3 (split; [reflexivity|]).
  apply (create_twice_consecutive minecraft blank healthy); reflexivity.
Defined.

(** X13 on the healthy table. *)
Lemma create_delete_restores_witness :
  Db.quiet 4 healthy = true ∧
  Db.safe (table healthy) = true ∧
  ∃ i m,
    result (ModelServeur.create minecraft healthy) = Return m ∧
    ModelServeur.id m = Some i ∧
    result (ModelServeur.delete i (world (ModelServeur.create minecraft healthy)))
      = Return true ∧
    table (world (ModelServeur.delete i
                    (world (ModelServeur.create minecraft healthy))))
      = table healthy ∧
    result (ModelServeur.getById i
              (world (ModelServeur.delete i
                        (world (ModelServeur.create minecraft healthy)))))
      = Return None.
Proof.
  do 2 (split; [reflexivity|]).
  apply (create_delete_restores minecraft healthy); reflexivity.
Defined.

(** X16 with the ASCII stand-in for [toLowerCase]. *)
Lemma getServeursActifGlobalByGame_ignores_case_witness :
  lower "Minecraft" = lower "MINECRAFT" ∧
  ModelServeur.getServeursActifGlobalByGame lower "Minecraft" healthy
    = ModelServeur.getServeursActifGlobalByGame lower "MINECRAFT" healthy.
Proof.
  split; [reflexivity|].
  apply (getServeursActifGlobalByGame_ignores_case lower
           "Minecraft" "MINECRAFT" healthy).
  reflexivity.
Defined.

(** X19 with server 1 missing and a service that rejects every call. *)
Lemma getStartedServeursInfo_service_rejection_witness :
  result (getServeursId secondary_only) = Return (Some params) ∧
  ((∃ p, result (ModelServeur.getById 1 (world (getServeursId secondary_only)))
           = Return (Some p) ∧
         result (offline p
                   (world (ModelServeur.getById 2
                             (world (ModelServeur.getById 1
                                       (world (getServeursId secondary_only)))))))
           = Raise (DriverError "ETIMEDOUT")) ∨
   (result (ModelServeur.getById 1 (world (getServeursId secondary_only)))
      = Return None ∧
    ∃ s, result (ModelServeur.getById 2
                   (world (ModelServeur.getById 1
                             (world (getServeursId secondary_only)))))
           = Return (Some s) ∧
         result (offline s
                   (world (ModelServeur.getById 2
                             (world (ModelServeur.getById 1
                                       (world (getServeursId secondary_only)))))))
           = Raise (DriverError "ETIMEDOUT"))) ∧
  result (ModelServeur.getStartedServeursInfo getServeursId offline
            secondary_only)
    = Raise (DriverError "ETIMEDOUT").
Proof.
  assert (result (ModelServeur.getById 1 (world (getServeursId secondary_only)))
            = Return None ∧
          ∃ s, result (ModelServeur.getById 2
                         (world (ModelServeur.getById 1
                                   (world (getServeursId secondary_only)))))
                 = Return (Some s) ∧
               result (offline s
                         (world (ModelServeur.getById 2
                                   (world (ModelServeur.getById 1
                                             (world (getServeursId
                                                       secondary_only)))))))
                 = Raise (DriverError "ETIMEDOUT")) as Hcase.
  { split; [reflexivity|].
    exists (ModelServeur.new (row 2 minecraft)). split; reflexivity. }
  split; [reflexivity|]. split; [right; exact Hcase|].
  apply (getStartedServeursInfo_service_rejection getServeursId offline
           secondary_only params (DriverError "ETIMEDOUT"));
    [reflexivity|right; exact Hcase].
Defined.

(** The listing by game on a table with a nameless active global server:
    the call raises. *)
Example getServeursActifGlobalByGame_nameless :
  (ModelServeur.getServeursActifGlobalByGame lower "minecraft"
     (setup [row 1 minecraft; nameless] [])).1
    = inl ModelServeur.TypeError.
Proof. reflexivity. Qed.

(** Registering the route [/] of the server router under the type
    [serveurs], with [API_URL] unset. *)
Example registerRoutes_unset_API_URL :
  Routes.route <$> Routes.registerRoutes None [get] (Some "serveurs")
    = ["undefined/serveurs/"].
Proof. reflexivity. Qed.

End MoreRuns.
